(** * MoodleMCP: request translation and write gating

    A shallow embedding of the three pieces of logic of the Moodle MCP
    server that are not plain parameter marshalling:

    - [core/config.py]: [MoodleConfig], its environment switch and the
      write allow-list ([is_production], [_parsed_dev_whitelist],
      [can_write_to_course]);
    - [core/client.py]: [MoodleAPIClient._flatten_params] and the response
      classification of [MoodleAPIClient._make_request];
    - [utils/error_handling.py]: the decorators [require_write_permission]
      and [handle_moodle_errors], and their use on
      [tools/courses.py:moodle_import_course_content].

    Conventions.  A Python [str] is a [string] whose characters are the
    code points below 256; [int] is [Z]; floats are left out of the value
    type.  A [dict] whose iteration order matters is an association list
    in insertion order; the keyword arguments of a call, which are only
    ever looked up by key, are a [gmap].  The requests a computation
    sends are threaded through it as a log. *)

From Stdlib Require Import ZArith Ascii String List Bool Lia.
From Stdlib Require Import DecimalString DecimalPos DecimalNat.
From stdpp Require Import base option gmap strings.
Import ListNotations.

Local Open Scope string_scope.
Local Open Scope Z_scope.

(** ** Python strings *)

Module PyString.

Definition code (c : ascii) : Z := Z.of_N (N_of_ascii c).

Definition chr (n : Z) : ascii := ascii_of_N (Z.to_N n).

(** [str.isspace] on one character, for code points below 256:
    TAB..CR, FS..US, SPACE, NEL and NBSP. *)
Definition isspace (c : ascii) : bool :=
  let n := code c in
  ((9 <=? n) && (n <=? 13)) || ((28 <=? n) && (n <=? 32))
  || (n =? 133) || (n =? 160).

(** [str.lower] on one character: A..Z, and the Latin-1 capitals
    U+00C0..U+00DE except the multiplication sign U+00D7. *)
Definition lower_char (c : ascii) : ascii :=
  let n := code c in
  if ((65 <=? n) && (n <=? 90))
     || ((192 <=? n) && (n <=? 222) && negb (n =? 215))
  then chr (n + 32) else c.

Fixpoint lower (s : string) : string :=
  match s with
  | EmptyString => EmptyString
  | String c s' => String (lower_char c) (lower s')
  end.

Fixpoint lstrip (s : string) : string :=
  match s with
  | EmptyString => EmptyString
  | String c s' => if isspace c then lstrip s' else s
  end.

Fixpoint rstrip (s : string) : string :=
  match s with
  | EmptyString => EmptyString
  | String c s' =>
      match rstrip s' with
      | EmptyString => if isspace c then EmptyString else String c EmptyString
      | r => String c r
      end
  end.

(** [s.strip()] *)
Definition strip (s : string) : string := rstrip (lstrip s).

(** [s.split(sep)] for a one-character separator: always at least one
    piece, [''.split(',') == ['']]. *)
Fixpoint split (sep : ascii) (s : string) : list string :=
  match s with
  | EmptyString => [EmptyString]
  | String c s' =>
      if Ascii.eqb c sep then EmptyString :: split sep s'
      else match split sep s' with
           | [] => [String c EmptyString]
           | piece :: rest => String c piece :: rest
           end
  end.

(** Truth value of a string: non-empty. *)
Definition truthy (s : string) : bool :=
  match s with EmptyString => false | _ => true end.

Fixpoint startswith (p s : string) : bool :=
  match p, s with
  | EmptyString, _ => true
  | String a p', String b s' => Ascii.eqb a b && startswith p' s'
  | String _ _, EmptyString => false
  end.

(** [needle in hay] for two strings: substring test. *)
Fixpoint contains (needle hay : string) : bool :=
  startswith needle hay
  || match hay with
     | EmptyString => false
     | String _ hay' => contains needle hay'
     end.

Definition digit_of (c : ascii) : option Z :=
  let n := code c in
  if (48 <=? n) && (n <=? 57) then Some (n - 48) else None.

(** The digits of a decimal literal: single underscores are allowed
    between digits only. [seen] tells whether the previous character
    was a digit. *)
Fixpoint int_digits (s : string) (acc : Z) (seen : bool) : option Z :=
  match s with
  | EmptyString => if seen then Some acc else None
  | String c s' =>
      if Ascii.eqb c "_"%char
      then (if seen then int_digits s' acc false else None)
      else match digit_of c with
           | Some d => int_digits s' (10 * acc + d) true
           | None => None
           end
  end.

(** CPython's default limit on the digits of one decimal literal
    ([sys.int_info.default_max_str_digits]). *)
Definition max_str_digits : Z := 4300.

(** The number of digit characters of a literal; underscores do not
    count, leading zeros do. *)
Fixpoint count_digits (s : string) : Z :=
  match s with
  | EmptyString => 0
  | String c s' =>
      match digit_of c with
      | Some _ => 1 + count_digits s'
      | None => count_digits s'
      end
  end.

(** The literal after the sign: [ValueError] when it has more digits
    than the limit allows, or is no decimal literal. *)
Definition int_literal (r : string) : option Z :=
  if max_str_digits <? count_digits r then None else int_digits r 0 false.

(** [int(s)] in base 10; [None] stands for [ValueError]. *)
Definition int (s : string) : option Z :=
  match strip s with
  | String "+"%char r => int_literal r
  | String "-"%char r => Z.opp <$> int_literal r
  | r => int_literal r
  end.

(** [str(n)] for an [int]. *)
Definition of_Z (n : Z) : string := NilZero.string_of_int (Z.to_int n).

Definition of_nat (n : nat) : string := NilZero.string_of_uint (Nat.to_uint n).

End PyString.

(** ** Python values *)

#[local] Set Warnings "-register-all".

(** The values that reach the modelled code: what [json] decoding
    produces and what tools pass as parameters. *)
Inductive pyval : Type :=
| PyNone
| PyBool (b : bool)
| PyInt (n : Z)
| PyStr (s : string)
| PyList (l : list pyval)
| PyTuple (l : list pyval)
| PyDict (d : list (string * pyval)).

Module PyVal.

Definition hex_digit (n : Z) : ascii :=
  if n <? 10 then PyString.chr (48 + n) else PyString.chr (87 + n).

(** One character of [repr] of a string delimited by [quote]. *)
Definition repr_char (quote c : ascii) : string :=
  let n := PyString.code c in
  if Ascii.eqb c quote || Ascii.eqb c "\"%char
  then String "\"%char (String c EmptyString)
  else if n =? 9 then "\t"
  else if n =? 10 then "\n"
  else if n =? 13 then "\r"
  else if (n <? 32) || ((127 <=? n) && (n <=? 160)) || (n =? 173)
  then String "\"%char (String "x"%char
         (String (hex_digit (n / 16)) (String (hex_digit (n mod 16)) EmptyString)))
  else String c EmptyString.

Fixpoint repr_chars (quote : ascii) (s : string) : string :=
  match s with
  | EmptyString => EmptyString
  | String c s' => repr_char quote c +:+ repr_chars quote s'
  end.

Fixpoint mem_char (c : ascii) (s : string) : bool :=
  match s with
  | EmptyString => false
  | String a s' => Ascii.eqb a c || mem_char c s'
  end.

(** [repr(s)] for a string: single quotes unless the string has a
    single quote and no double quote. *)
Definition repr_str (s : string) : string :=
  let quote :=
    if mem_char "'"%char s && negb (mem_char "034"%char s)
    then "034"%char else "'"%char in
  String quote (repr_chars quote s) +:+ String quote EmptyString.

Fixpoint repr (v : pyval) : string :=
  let items :=
    fix items (l : list pyval) (first : bool) : string :=
      match l with
      | [] => ""
      | x :: l' => (if first then "" else ", ") +:+ repr x +:+ items l' false
      end in
  match v with
  | PyNone => "None"
  | PyBool true => "True"
  | PyBool false => "False"
  | PyInt n => PyString.of_Z n
  | PyStr s => repr_str s
  | PyList l => "[" +:+ items l true +:+ "]"
  | PyTuple l =>
      match l with
      | [x] => "(" +:+ repr x +:+ ",)"
      | _ => "(" +:+ items l true +:+ ")"
      end
  | PyDict d =>
      "{" +:+
      (fix entries (d : list (string * pyval)) (first : bool) : string :=
         match d with
         | [] => ""
         | (k, x) :: d' =>
             (if first then "" else ", ") +:+ repr_str k +:+ ": " +:+ repr x
             +:+ entries d' false
         end) d true
      +:+ "}"
  end.

(** [str(v)], also what an f-string field [{v}] renders. *)
Definition str (v : pyval) : string :=
  match v with
  | PyStr s => s
  | _ => repr v
  end.

(** [bool(v)] *)
Definition truthy (v : pyval) : bool :=
  match v with
  | PyNone => false
  | PyBool b => b
  | PyInt n => negb (n =? 0)
  | PyStr s => PyString.truthy s
  | PyList l | PyTuple l => match l with [] => false | _ => true end
  | PyDict d => match d with [] => false | _ => true end
  end.

(** [v == n] for an [int] [n]: [True == 1] and [False == 0] hold, a
    value of any other type is never equal to an [int]. *)
Definition eq_int (v : pyval) (n : Z) : bool :=
  match v with
  | PyInt m => m =? n
  | PyBool b => Z.b2z b =? n
  | _ => false
  end.

(** [v in l] for a list of [int]s. *)
Definition in_ints (v : pyval) (l : list Z) : bool :=
  existsb (eq_int v) l.

(** [k in d] and [d.get(k, default)] on a dict. *)
Fixpoint dict_lookup (d : list (string * pyval)) (k : string) : option pyval :=
  match d with
  | [] => None
  | (k', v) :: d' => if String.eqb k' k then Some v else dict_lookup d' k
  end.

Definition dict_has (d : list (string * pyval)) (k : string) : bool :=
  match dict_lookup d k with Some _ => true | None => false end.

Definition dict_get (d : list (string * pyval)) (k : string) (default : pyval) : pyval :=
  match dict_lookup d k with Some v => v | None => default end.

End PyVal.

(** ** Configuration: [core/config.py] *)

(** [MoodleConfig]: the settings read from the environment. *)
Record MoodleConfig : Type := {
  env : string;
  dev_url : string;
  dev_token : string;
  prod_url : string;
  prod_token : string;
  api_timeout : Z;
  max_connections : Z;
  max_keepalive_connections : Z;
  max_response_chars : Z;
  dev_course_whitelist : string;
  prod_allow_writes : bool
}.

Module Config.

(** The class defaults, for the settings that have one. *)
Definition default_env : string := "dev".
Definition default_dev_course_whitelist : string := "7299".
Definition default_prod_allow_writes : bool := false.

(** [MoodleConfig(...)] with the four required settings and the mode;
    every other field takes its default. *)
Definition with_defaults (e du dt pu pt : string) : MoodleConfig :=
  {| env := e; dev_url := du; dev_token := dt; prod_url := pu; prod_token := pt;
     api_timeout := 30; max_connections := 100; max_keepalive_connections := 20;
     max_response_chars := 50000;
     dev_course_whitelist := default_dev_course_whitelist;
     prod_allow_writes := default_prod_allow_writes |}.

(** The list comprehension of [_parsed_dev_whitelist]:
    [[int(id.strip()) for id in pieces if id.strip()]];
    [None] when some [int(...)] raises [ValueError]. *)
Fixpoint parse_ids (pieces : list string) : option (list Z) :=
  match pieces with
  | [] => Some []
  | id :: rest =>
      if PyString.truthy (PyString.strip id)
      then match PyString.int (PyString.strip id) with
           | Some n => cons n <$> parse_ids rest
           | None => None
           end
      else parse_ids rest
  end.

Definition _parsed_dev_whitelist (self : MoodleConfig) : list Z :=
  match parse_ids (PyString.split ","%char (dev_course_whitelist self)) with
  | Some ids => ids
  | None => [7299]
  end.

Definition is_production (self : MoodleConfig) : bool :=
  String.eqb (PyString.strip (PyString.lower (env self))) "prod".

Definition is_development (self : MoodleConfig) : bool :=
  negb (is_production self).

Definition url (self : MoodleConfig) : string :=
  if String.eqb (PyString.strip (PyString.lower (env self))) "prod"
  then prod_url self else dev_url self.

Definition token (self : MoodleConfig) : string :=
  if String.eqb (PyString.strip (PyString.lower (env self))) "prod"
  then prod_token self else dev_token self.

Definition environment_name (self : MoodleConfig) : string :=
  if String.eqb (PyString.strip (PyString.lower (env self))) "prod"
  then "PRODUCTION" else "DEVELOPMENT".

Definition can_write_to_course (self : MoodleConfig) (course_id : pyval) : bool :=
  if is_production self
  then prod_allow_writes self
  else PyVal.in_ints course_id (_parsed_dev_whitelist self).

Definition newline : string := String (PyString.chr 10) EmptyString.

Definition get_write_restriction_message (self : MoodleConfig) (course_id : pyval) : string :=
  if is_production self
  then "Write operations are DISABLED in PRODUCTION mode." +:+ newline
       +:+ "Attempted: Course " +:+ PyVal.str course_id +:+ newline
       +:+ "Safety: prod_allow_writes=" +:+ PyVal.str (PyBool (prod_allow_writes self))
  else "Write operations are only allowed on whitelisted courses in DEV mode." +:+ newline
       +:+ "Attempted: Course " +:+ PyVal.str course_id +:+ newline
       +:+ "Allowed: " +:+ PyVal.str (PyList (PyInt <$> _parsed_dev_whitelist self)) +:+ newline
       +:+ "To allow writes to this course, add it to MOODLE_DEV_COURSE_WHITELIST".

End Config.

(** ** Exceptions and results *)

(** The exception classes that occur: the hierarchy of
    [core/exceptions.py], [WriteOperationError] of
    [utils/error_handling.py], fastmcp's [ToolError] and the builtins.
    All of them derive from [Exception]; the classes that derive from
    [BaseException] only ([asyncio.CancelledError], [KeyboardInterrupt])
    are outside the model. *)
Inductive exc_class : Type :=
| PyException
| ValueError
| TypeError
| AttributeError
| RuntimeError
| ToolError
| MoodleException
| MoodleAPIError
| MoodleAuthError
| MoodleConnectionError
| MoodleValidationError
| MoodleNotFoundError
| MoodlePermissionError
| WriteOperationError.

(** A raised exception: its class and [str(e)]. *)
Record exn : Type := Exn { exn_class : exc_class; exn_message : string }.

Inductive outcome (A : Type) : Type :=
| Ok (a : A)
| Raise (e : exn).

Arguments Ok {A} a.
Arguments Raise {A} e.

Module Exc.

Definition eqb (a b : exc_class) : bool :=
  match a, b with
  | PyException, PyException | ValueError, ValueError | TypeError, TypeError
  | AttributeError, AttributeError | RuntimeError, RuntimeError
  | ToolError, ToolError | MoodleException, MoodleException
  | MoodleAPIError, MoodleAPIError | MoodleAuthError, MoodleAuthError
  | MoodleConnectionError, MoodleConnectionError
  | MoodleValidationError, MoodleValidationError
  | MoodleNotFoundError, MoodleNotFoundError
  | MoodlePermissionError, MoodlePermissionError
  | WriteOperationError, WriteOperationError => true
  | _, _ => false
  end.

(** The direct base class; [Exception] is the root here. *)
Definition base (c : exc_class) : option exc_class :=
  match c with
  | PyException => None
  | ValueError | TypeError | AttributeError | RuntimeError | ToolError
  | MoodleException => Some PyException
  | MoodleAPIError | MoodleConnectionError | MoodleValidationError => Some MoodleException
  | MoodleAuthError | MoodleNotFoundError | MoodlePermissionError => Some MoodleAPIError
  | WriteOperationError => Some MoodlePermissionError
  end.

Fixpoint issubclass_fuel (fuel : nat) (c target : exc_class) : bool :=
  eqb c target
  || match fuel with
     | O => false
     | S fuel' =>
         match base c with
         | Some b => issubclass_fuel fuel' b target
         | None => false
         end
     end.

(** What [except target] tests; the hierarchy is four classes deep. *)
Definition issubclass (c target : exc_class) : bool := issubclass_fuel 4 c target.

(** [type(e).__name__] *)
Definition name (c : exc_class) : string :=
  match c with
  | PyException => "Exception"
  | ValueError => "ValueError"
  | TypeError => "TypeError"
  | AttributeError => "AttributeError"
  | RuntimeError => "RuntimeError"
  | ToolError => "ToolError"
  | MoodleException => "MoodleException"
  | MoodleAPIError => "MoodleAPIError"
  | MoodleAuthError => "MoodleAuthError"
  | MoodleConnectionError => "MoodleConnectionError"
  | MoodleValidationError => "MoodleValidationError"
  | MoodleNotFoundError => "MoodleNotFoundError"
  | MoodlePermissionError => "MoodlePermissionError"
  | WriteOperationError => "WriteOperationError"
  end.

Definition raise {A : Type} (c : exc_class) (msg : string) : outcome A :=
  Raise (Exn c msg).

(** [type(v).__name__] of a value, as error messages spell it. *)
Definition type_name (v : pyval) : string :=
  match v with
  | PyNone => "NoneType"
  | PyBool _ => "bool"
  | PyInt _ => "int"
  | PyStr _ => "str"
  | PyList _ => "list"
  | PyTuple _ => "tuple"
  | PyDict _ => "dict"
  end.

End Exc.

(** ** The API client: [core/client.py] *)

(** The flat parameters of a request: a [dict] from [str] to [str], in
    insertion order. *)
Definition flat_params : Type := list (string * string).

Module FlatParams.

(** [d[k] = v]: an existing key keeps its place. *)
Fixpoint set (d : flat_params) (k v : string) : flat_params :=
  match d with
  | [] => [(k, v)]
  | (k', v') :: d' =>
      if String.eqb k' k then (k', v) :: d' else (k', v') :: set d' k v
  end.

(** [d.update(other)] *)
Definition update (d other : flat_params) : flat_params :=
  fold_left (fun acc kv => set acc (fst kv) (snd kv)) other d.

Fixpoint get (d : flat_params) (k : string) : option string :=
  match d with
  | [] => None
  | (k', v) :: d' => if String.eqb k' k then Some v else get d' k
  end.

End FlatParams.

(** One HTTP request: the URL and the query parameters. *)
Record request : Type := { req_url : string; req_params : flat_params }.

(** What [response.json()] gives: the decoded value, or [ValueError]
    with its text. *)
Inductive decoded : Type :=
| Json (v : pyval)
| NotJson (msg : string).

(** What [await client.get(...)] gives: [httpx.RequestError] with its
    text when no response arrived, else the response, with the text
    [raise_for_status] would put in its [HTTPStatusError].  These are
    the outcomes the [except] clauses of [_make_request] are written
    for; an exception of [client.get] of another class ([httpx.InvalidURL]
    for a URL that is too long, a cancellation) is outside the model. *)
Inductive http_reply : Type :=
| RequestError (msg : string)
| Response (status_code : Z) (status_text : string) (body : decoded).

(** The requests sent so far, oldest first. *)
Definition world : Type := list request.

(** A computation that may send requests and may raise. *)
Definition M (A : Type) : Type := world -> outcome A * world.

Definition ret {A : Type} (a : A) : M A := fun w => (Ok a, w).

Definition throw {A : Type} (c : exc_class) (msg : string) : M A :=
  fun w => (Exc.raise c msg, w).

Definition bind {A B : Type} (m : M A) (k : A -> M B) : M B :=
  fun w =>
    match m w with
    | (Ok a, w') => k a w'
    | (Raise e, w') => (Raise e, w')
    end.

(** [try: m except Exception as e: h e] *)
Definition try_except {A : Type} (m : M A) (h : exn -> M A) : M A :=
  fun w =>
    match m w with
    | (Ok a, w') => (Ok a, w')
    | (Raise e, w') => h e w'
    end.

Definition lift {A : Type} (r : outcome A) : M A := fun w => (r, w).

Notation "x <- m ;; k" := (bind m (fun x => k))
  (at level 100, m at next level, right associativity).

(** [MoodleAPIClient]: [client_get] stands for [self.client.get], the
    reply of the server to a request given the requests before it. *)
Record MoodleAPIClient : Type := {
  base_url : string;
  token : string;
  api_endpoint : string;
  client_get : world -> request -> http_reply
}.

Module Client.

Fixpoint rstrip_char (ch : ascii) (s : string) : string :=
  match s with
  | EmptyString => EmptyString
  | String c s' =>
      match rstrip_char ch s' with
      | EmptyString => if Ascii.eqb c ch then EmptyString else String c EmptyString
      | r => String c r
      end
  end.

(** [MoodleAPIClient.__init__] *)
Definition init (url tok : string) (get : world -> request -> http_reply)
  : MoodleAPIClient :=
  let b := rstrip_char "/"%char url in
  {| base_url := b; token := tok;
     api_endpoint := b +:+ "/webservice/rest/server.php";
     client_get := get |}.

(** The body of the loop of [_flatten_params], for one [key, value]
    of [params]; [entries] is the recursive call on a nested dict,
    started from a fresh [flattened]. *)
Fixpoint flatten_item (prefix key : string) (value : pyval)
    (flattened : flat_params) {struct value} : flat_params :=
  let entries :=
    fix entries (d : list (string * pyval)) (p : string) (acc : flat_params)
        {struct d} : flat_params :=
      match d with
      | [] => acc
      | (k, v) :: d' => entries d' p (flatten_item p k v acc)
      end in
  let new_key := if PyString.truthy prefix then prefix +:+ key else key in
  match value with
  | PyDict d =>
      let flattened := FlatParams.update flattened (entries d (new_key +:+ "[") []) in
      if PyString.truthy prefix
      then FlatParams.set flattened (new_key +:+ "]") ""
      else flattened
  | PyList l | PyTuple l =>
      (fix items (l : list pyval) (i : nat) (flattened : flat_params)
           {struct l} : flat_params :=
         match l with
         | [] => flattened
         | item :: l' =>
             items l' (S i)
               match item with
               | PyDict d =>
                   FlatParams.update flattened
                     (entries d (new_key +:+ "[" +:+ PyString.of_nat i +:+ "][") [])
               | _ =>
                   FlatParams.set flattened
                     (new_key +:+ "[" +:+ PyString.of_nat i +:+ "]") (PyVal.str item)
               end
         end) l 0%nat flattened
  | _ => FlatParams.set flattened new_key (PyVal.str value)
  end.

(** [_flatten_params(params, prefix)] *)
Definition _flatten_params (params : list (string * pyval)) (prefix : string)
  : flat_params :=
  fold_left (fun flattened kv => flatten_item prefix (fst kv) (snd kv) flattened)
    params [].

(** [needle in v] for a string [needle]: substring of a string,
    element of a list or tuple, key of a dict; [TypeError] on a value
    that is no container. *)
Definition str_in (needle : string) (v : pyval) : outcome bool :=
  match v with
  | PyStr s => Ok (PyString.contains needle s)
  | PyList l | PyTuple l =>
      Ok (existsb (fun x => match x with
                            | PyStr s => String.eqb s needle
                            | _ => false
                            end) l)
  | PyDict d => Ok (PyVal.dict_has d needle)
  | _ => Exc.raise TypeError
           ("argument of type '" +:+ Exc.type_name v +:+ "' is not iterable")
  end.

(** [a in v or b in v], the right operand evaluated only when the
    left one is false. *)
Definition either_in (a b : string) (v : pyval) : outcome bool :=
  match str_in a v with
  | Ok true => Ok true
  | Ok false => str_in b v
  | Raise e => Raise e
  end.

(** [' - ' + debug_info if debug_info else ''] *)
Definition debug_suffix (debug_info : pyval) : outcome string :=
  if PyVal.truthy debug_info
  then match debug_info with
       | PyStr s => Ok (" - " +:+ s)
       | _ => Exc.raise TypeError
                ("can only concatenate str (not " +:+ String "034"%char
                   (Exc.type_name debug_info) +:+ String "034"%char ") to str")
       end
  else Ok "".

(** The handling of Moodle error responses in [_make_request]: the
    statements between [result = response.json()] and [return result]. *)
Definition classify (result : pyval) : outcome pyval :=
  match result with
  | PyDict d =>
      if PyVal.dict_has d "exception" || PyVal.dict_has d "errorcode"
      then
        let error_msg := PyVal.dict_get d "message" (PyStr "Unknown error") in
        let error_code := PyVal.dict_get d "errorcode" (PyStr "unknown") in
        let debug_info := PyVal.dict_get d "debuginfo" (PyStr "") in
        match either_in "invalidtoken" "accessexception" error_code with
        | Raise e => Raise e
        | Ok true =>
            Exc.raise MoodleAuthError ("Authentication failed: " +:+ PyVal.str error_msg)
        | Ok false =>
            match either_in "nopermission" "requireloginerror" error_code with
            | Raise e => Raise e
            | Ok true =>
                Exc.raise MoodlePermissionError
                  ("Permission denied: " +:+ PyVal.str error_msg)
            | Ok false =>
                match either_in "invalidrecord" "notfound" error_code with
                | Raise e => Raise e
                | Ok true =>
                    Exc.raise MoodleNotFoundError ("Not found: " +:+ PyVal.str error_msg)
                | Ok false =>
                    match debug_suffix debug_info with
                    | Raise e => Raise e
                    | Ok suffix =>
                        Exc.raise MoodleAPIError
                          ("Moodle API error (" +:+ PyVal.str error_code +:+ "): "
                             +:+ PyVal.str error_msg +:+ suffix)
                    end
                end
            end
        end
      else Ok result
  | _ => Ok result
  end.

(** [response.raise_for_status()] lets the 2xx codes through. *)
Definition is_success (status : Z) : bool := (200 <=? status) && (status <=? 299).

(** The handler of [httpx.HTTPStatusError]. *)
Definition http_status_error (status : Z) (text : string) : outcome pyval :=
  if (status =? 401) || (status =? 403)
  then Exc.raise MoodleAuthError
         ("HTTP " +:+ PyString.of_Z status +:+ ": Authentication failed")
  else if status =? 404
  then Exc.raise MoodleNotFoundError "HTTP 404: Resource not found"
  else Exc.raise MoodleConnectionError
         ("HTTP error " +:+ PyString.of_Z status +:+ ": " +:+ text).

(** The [try] statement of [_make_request], from the reply on. *)
Definition handle_reply (reply : http_reply) : outcome pyval :=
  match reply with
  | RequestError msg => Exc.raise MoodleConnectionError ("Connection failed: " +:+ msg)
  | Response status text body =>
      if is_success status
      then match body with
           | NotJson msg => Exc.raise MoodleAPIError ("Invalid JSON response: " +:+ msg)
           | Json result => classify result
           end
      else http_status_error status text
  end.

(** The request parameters [_make_request] builds; [params] is [None]
    or a dict. *)
Definition request_params (self : MoodleAPIClient) (function_name : string)
    (params : option (list (string * pyval))) : flat_params :=
  let request_params :=
    [("wstoken", token self); ("wsfunction", function_name);
     ("moodlewsrestformat", "json")] in
  match params with
  | Some ((_ :: _) as p) => FlatParams.update request_params (_flatten_params p "")
  | _ => request_params
  end.

(** [await self._make_request(function_name, params)] *)
Definition _make_request (self : MoodleAPIClient) (function_name : string)
    (params : option (list (string * pyval))) : M pyval :=
  fun w =>
    let req := {| req_url := api_endpoint self;
                  req_params := request_params self function_name params |} in
    (handle_reply (client_get self w req), (w ++ [req])%list).

Definition get_site_info (self : MoodleAPIClient) : M pyval :=
  _make_request self "core_webservice_get_site_info" None.

End Client.

(** ** Tool calls *)

(** What the lifespan function of [main.py] puts in the dict it yields. *)
Inductive lifespan_obj : Type :=
| LNone
| LConfig (config : MoodleConfig)
| LClient (moodle_client : MoodleAPIClient).

(** [ctx.request_context], with its [lifespan_context] dict. *)
Record RequestContext : Type := {
  lifespan_context : list (string * lifespan_obj)
}.

(** fastmcp's [Context]. *)
Record Context : Type := {
  request_context : option RequestContext
}.

(** An argument of a tool call: a plain value, the [Context], or the
    [FieldInfo] object that [Field(...)] leaves as a parameter default. *)
Inductive pyobj : Type :=
| OVal (v : pyval)
| OCtx (ctx : Context)
| OFieldInfo.

(** An async tool function, called with positional and keyword
    arguments. *)
Definition tool (A : Type) : Type := list pyobj -> gmap string pyobj -> M A.

Module Lifespan.

(** [lifespan_context.get(key)]: [None] for a missing key too. *)
Fixpoint get (d : list (string * lifespan_obj)) (key : string) : lifespan_obj :=
  match d with
  | [] => LNone
  | (k, o) :: d' => if String.eqb k key then o else get d' key
  end.

(** The dict yielded by [lifespan]. *)
Definition make (moodle_client : MoodleAPIClient) (config : MoodleConfig)
  : list (string * lifespan_obj) :=
  [("moodle_client", LClient moodle_client); ("config", LConfig config)].

End Lifespan.

(** [kwargs.get(name)]: [None] for a missing key too. *)
Definition kwargs_get (kwargs : gmap string pyobj) (name : string) : pyobj :=
  match kwargs !! name with
  | Some o => o
  | None => OVal PyNone
  end.

Definition is_none (o : pyobj) : bool :=
  match o with
  | OVal PyNone => true
  | _ => false
  end.

(** ** Decorators: [utils/error_handling.py] *)

Module ErrorHandling.

Definition nl : string := Config.newline.

(** [config.can_write_to_course(course_id)] on whatever the tool was
    given as identifier: an object that is no plain value is equal to
    no [int]. *)
Definition can_write (config : MoodleConfig) (course_id : pyobj) : bool :=
  match course_id with
  | OVal v => Config.can_write_to_course config v
  | _ => Config.is_production config && prod_allow_writes config
  end.

(** [config.get_write_restriction_message(course_id)]; the text of an
    object that is no plain value is not modelled. *)
Definition restriction_message (config : MoodleConfig) (course_id : pyobj) : string :=
  match course_id with
  | OVal v => Config.get_write_restriction_message config v
  | OCtx _ => Config.get_write_restriction_message config (PyStr "<Context>")
  | OFieldInfo => Config.get_write_restriction_message config (PyStr "<FieldInfo>")
  end.

(** [require_write_permission(course_id_param)(func)]: the [wrapper]. *)
Definition require_write_permission {A : Type} (course_id_param : string)
    (func : tool A) : tool A :=
  fun args kwargs =>
    let course_id := kwargs_get kwargs course_id_param in
    if is_none course_id
    then throw WriteOperationError
           ("Write operation requires '" +:+ course_id_param +:+ "' parameter")
    else
      match kwargs_get kwargs "ctx" with
      | OVal PyNone =>
          throw WriteOperationError "Write operation requires Context (ctx parameter)"
      | OVal v =>
          throw AttributeError
            ("'" +:+ Exc.type_name v +:+ "' object has no attribute 'request_context'")
      | OFieldInfo =>
          throw AttributeError "'FieldInfo' object has no attribute 'request_context'"
      | OCtx ctx =>
          match request_context ctx with
          | None =>
              throw AttributeError
                "'NoneType' object has no attribute 'lifespan_context'"
          | Some rc =>
              match Lifespan.get (lifespan_context rc) "config" with
              | LNone =>
                  throw WriteOperationError "Configuration not available in context"
              | LClient _ =>
                  throw AttributeError
                    "'MoodleAPIClient' object has no attribute 'can_write_to_course'"
              | LConfig config =>
                  if negb (can_write config course_id)
                  then throw WriteOperationError
                         ("Write operation blocked for safety:" +:+ nl +:+ nl
                            +:+ restriction_message config course_id)
                  else func args kwargs
              end
          end
      end.

(** In the last handler of [handle_moodle_errors]: the flag [is_dev].
    [is_development] is a property, so [config.is_development()] calls
    a [bool] and raises [TypeError]; the bare [except] swallows what
    the attempt raises and the default stays. *)
Definition unexpected_is_dev (kwargs : gmap string pyobj) : bool :=
  let is_dev := true in
  if is_none (kwargs_get kwargs "ctx") then is_dev
  else
    let attempt : outcome bool :=
      match kwargs_get kwargs "ctx" with
      | OCtx ctx =>
          match request_context ctx with
          | Some rc =>
              match Lifespan.get (lifespan_context rc) "config" with
              | LNone => Ok is_dev
              | LConfig _ => Exc.raise TypeError "'bool' object is not callable"
              | LClient _ =>
                  Exc.raise AttributeError
                    "'MoodleAPIClient' object has no attribute 'is_development'"
              end
          | None =>
              Exc.raise AttributeError
                "'NoneType' object has no attribute 'lifespan_context'"
          end
      | _ => Exc.raise AttributeError "object has no attribute 'request_context'"
      end in
    match attempt with
    | Ok b => b
    | Raise _ => is_dev
    end.

Definition tool_error {A : Type} (msg : string) : M A := throw ToolError msg.

(** [handle_moodle_errors(func)]: the [wrapper]; the handlers in the
    order of the [except] clauses. *)
Definition handle_moodle_errors {A : Type} (func : tool A) : tool A :=
  fun args kwargs =>
    try_except (func args kwargs) (fun e =>
      let c := exn_class e in
      let msg := exn_message e in
      if Exc.issubclass c MoodleAuthError then
        tool_error ("Authentication failed: " +:+ msg +:+ nl +:+ nl
          +:+ "Please verify:" +:+ nl
          +:+ "1. MOODLE_TOKEN is correct and not expired" +:+ nl
          +:+ "2. Token has required web service permissions" +:+ nl
          +:+ "3. Web services are enabled on the Moodle site")
      else if Exc.issubclass c MoodlePermissionError then
        tool_error ("Permission denied: " +:+ msg +:+ nl +:+ nl
          +:+ "The current user lacks permission for this operation. "
          +:+ "Try using a different account or contact your Moodle administrator.")
      else if Exc.issubclass c MoodleNotFoundError then
        tool_error ("Not found: " +:+ msg +:+ nl +:+ nl
          +:+ "Please verify the ID is correct and the resource exists.")
      else if Exc.issubclass c MoodleConnectionError then
        tool_error ("Connection error: " +:+ msg +:+ nl +:+ nl
          +:+ "Please verify:" +:+ nl
          +:+ "1. MOODLE_URL is correct and accessible" +:+ nl
          +:+ "2. Network connection is stable" +:+ nl
          +:+ "3. Moodle site is online")
      else if Exc.issubclass c MoodleValidationError then
        tool_error ("Invalid input: " +:+ msg)
      else if Exc.issubclass c MoodleAPIError then
        tool_error ("Moodle API error: " +:+ msg)
      else if Exc.issubclass c ValueError then
        tool_error ("Validation error: " +:+ msg)
      else
        let error_msg :=
          if unexpected_is_dev kwargs
          then "An unexpected error occurred: " +:+ Exc.name c +:+ nl +:+ nl
          else "An unexpected error occurred." +:+ nl +:+ nl in
        tool_error (error_msg
          +:+ "Please try again or contact the administrator if the issue persists.")).

End ErrorHandling.

(** ** Helpers: [utils/api_helpers.py] *)

Module ApiHelpers.

Definition keys_repr (d : list (string * lifespan_obj)) : string :=
  PyVal.repr (PyList ((fun kv => PyStr (fst kv)) <$> d)).

(** [get_moodle_client(ctx)], for the arguments of this model: [None],
    a plain value, or fastmcp's [Context], whose request context has a
    [lifespan_context] that is a dict.  For these the function ends in
    its first [isinstance(lifespan_ctx, dict)] branch; the attribute
    access, the fallbacks on [request_ctx] and the last [RuntimeError]
    are for other context objects, which the model does not have. *)
Definition get_moodle_client (ctx : pyobj) : outcome lifespan_obj :=
  match ctx with
  | OVal PyNone =>
      Exc.raise RuntimeError "Context is None - ensure tool is called with ctx parameter"
  | OVal v =>
      Exc.raise AttributeError
        ("'" +:+ Exc.type_name v +:+ "' object has no attribute 'request_context'")
  | OFieldInfo =>
      Exc.raise AttributeError "'FieldInfo' object has no attribute 'request_context'"
  | OCtx c =>
      match request_context c with
      | None =>
          Exc.raise RuntimeError
            "request_context is None - server lifespan may not be initialized"
      | Some rc =>
          match Lifespan.get (lifespan_context rc) "moodle_client" with
          | LNone =>
              Exc.raise RuntimeError
                ("moodle_client not found in lifespan_context. Keys: "
                   +:+ keys_repr (lifespan_context rc))
          | client => Ok client
          end
      end
  end.

End ApiHelpers.

(** ** The course import tool: [tools/courses.py] *)

(** The call [format_response(data, title, format)] a tool returns;
    rendering it to text is not modelled. *)
Record rendered : Type := {
  rendered_data : pyval;
  rendered_title : string;
  rendered_format : pyobj
}.

Module Courses.

(** The value a parameter contributes to a dict of request parameters;
    the text of an object that is no plain value is not modelled. *)
Definition param_value (o : pyobj) : pyval :=
  match o with
  | OVal v => v
  | OCtx _ => PyStr "<Context>"
  | OFieldInfo => PyStr "<FieldInfo>"
  end.

(** Python's binding of positional and keyword arguments to the
    parameters [names] of a function that takes no variadic ones. *)
Definition bind_arguments (names : list string) (args : list pyobj)
    (kwargs : gmap string pyobj) : outcome (gmap string pyobj) :=
  let positional : gmap string pyobj := list_to_map (zip names args) in
  if (length names <? length args)%nat
  then Exc.raise TypeError "too many positional arguments"
  else if negb (bool_decide ((dom kwargs : gset string) ⊆ (list_to_set names : gset string)))
  then Exc.raise TypeError "got an unexpected keyword argument"
  else if negb (bool_decide ((dom kwargs : gset string) ## (dom positional : gset string)))
  then Exc.raise TypeError "got multiple values for argument"
  else Ok (kwargs ∪ positional).

Definition parameters : list string :=
  ["source_course_id"; "dest_course_id"; "format"; "ctx"].

(** The default of a parameter: [Field(...)] for the first three,
    [None] for [ctx]. *)
Definition bound (b : gmap string pyobj) (name : string) : pyobj :=
  match b !! name with
  | Some o => o
  | None => if String.eqb name "ctx" then OVal PyNone else OFieldInfo
  end.

(** [await moodle._make_request(...)] on what [get_moodle_client]
    returned. *)
Definition make_request_on (moodle : lifespan_obj) (function_name : string)
    (params : list (string * pyval)) : M pyval :=
  match moodle with
  | LClient m => Client._make_request m function_name (Some params)
  | LConfig _ => throw AttributeError "'MoodleConfig' object has no attribute '_make_request'"
  | LNone => throw AttributeError "'NoneType' object has no attribute '_make_request'"
  end.

(** The body of [moodle_import_course_content]. *)
Definition import_body (source_course_id dest_course_id format ctx : pyobj)
  : M rendered :=
  moodle <- lift (ApiHelpers.get_moodle_client ctx) ;;
  try_except
    (let params :=
       [("importfrom", param_value source_course_id);
        ("importto", param_value dest_course_id);
        ("deletecontent", PyInt 0)] in
     _ <- make_request_on moodle "core_course_import_course" params ;;
     let response_data :=
       PyDict [("source_course_id", param_value source_course_id);
               ("dest_course_id", param_value dest_course_id);
               ("imported", PyBool true)] in
     ret {| rendered_data := response_data;
            rendered_title := "Course Content Imported";
            rendered_format := format |})
    (fun e => throw PyException
                ("Failed to import course content: " +:+ exn_message e)).

(** The undecorated async function, as called by the innermost
    wrapper. *)
Definition import_course_content : tool rendered :=
  fun args kwargs =>
    b <- lift (bind_arguments parameters args kwargs) ;;
    import_body (bound b "source_course_id") (bound b "dest_course_id")
      (bound b "format") (bound b "ctx").

(** The function under its two [require_write_permission] decorators:
    the one for [source_course_id] is the outer one. *)
Definition write_gated_import : tool rendered :=
  ErrorHandling.require_write_permission "source_course_id"
    (ErrorHandling.require_write_permission "dest_course_id"
       import_course_content).

(** The registered tool: [handle_moodle_errors] around the gates. *)
Definition moodle_import_course_content : tool rendered :=
  ErrorHandling.handle_moodle_errors write_gated_import.

End Courses.

(** * Vocabulary of the properties *)

(** ** A stub deployment, for the examples *)

Module Stub.

(** A server that answers every request with HTTP 200 and [null]. *)
Definition null_server : world -> request -> http_reply :=
  fun _ _ => Response 200 "" (Json PyNone).

(** The error body of an invalid token. *)
Definition invalid_token_body : pyval :=
  PyDict [("exception", PyStr "x"); ("errorcode", PyStr "invalidtoken");
          ("message", PyStr "bad")].

(** A server that answers every request with the given status and that
    body. *)
Definition invalid_token_server (status : Z) : world -> request -> http_reply :=
  fun _ _ => Response status "Server error" (Json invalid_token_body).

Definition client (server : world -> request -> http_reply) : MoodleAPIClient :=
  Client.init "https://moodle.example/" "secret" server.

(** A configuration with the given mode and allow-list string. *)
Definition config (mode whitelist : string) (allow : bool) : MoodleConfig :=
  {| env := mode;
     dev_url := "https://dev.example"; dev_token := "dev-token";
     prod_url := "https://prod.example"; prod_token := "prod-token";
     api_timeout := 30; max_connections := 100; max_keepalive_connections := 20;
     max_response_chars := 50000;
     dev_course_whitelist := whitelist;
     prod_allow_writes := allow |}.

Definition dev_config : MoodleConfig := config "dev" "7299" false.

Definition context (entries : list (string * lifespan_obj)) : Context :=
  {| request_context := Some {| lifespan_context := entries |} |}.

(** The context the lifespan function provides. *)
Definition ctx : Context := context (Lifespan.make (client null_server) dev_config).

(** The keyword arguments of a call of the import tool. *)
Definition import_call (source dest : Z) : gmap string pyobj :=
  <["source_course_id" := OVal (PyInt source)]>
    (<["dest_course_id" := OVal (PyInt dest)]> (<["ctx" := OCtx ctx]> ∅)).

End Stub.

(** ** Predicates and example calls *)

(** A string of whitespace only. *)
Fixpoint all_space (s : string) : bool :=
  match s with
  | EmptyString => true
  | String c s' => PyString.isspace c && all_space s'
  end.

(** A string of commas and whitespace only. *)
Fixpoint commas_and_space (s : string) : bool :=
  match s with
  | EmptyString => true
  | String c s' => (Ascii.eqb c ","%char || PyString.isspace c) && commas_and_space s'
  end.

(** The three tests on the error code, in the order of the source. *)
Definition auth_code (code : string) : bool :=
  PyString.contains "invalidtoken" code || PyString.contains "accessexception" code.

Definition permission_code (code : string) : bool :=
  PyString.contains "nopermission" code || PyString.contains "requireloginerror" code.

Definition not_found_code (code : string) : bool :=
  PyString.contains "invalidrecord" code || PyString.contains "notfound" code.

(** The request [_make_request] sends. *)
Definition request_of (self : MoodleAPIClient) (function_name : string)
    (params : option (list (string * pyval))) : request :=
  {| req_url := api_endpoint self;
     req_params := Client.request_params self function_name params |}.

(** Error bodies, one per variant. *)
Definition login_required_body : list (string * pyval) :=
  [("errorcode", PyStr "requireloginerror"); ("message", PyStr "no")].



(** The site-information call against a stub server, from an empty
    world. *)
Definition site_info_call (server : world -> request -> http_reply)
  : outcome pyval :=
  fst (Client.get_site_info (Stub.client server) []).

(** A server that answers HTTP 200 with a page that is no JSON. *)
Definition html_server : world -> request -> http_reply :=
  fun _ _ => Response 200 "" (NotJson "Expecting value: line 1 column 1 (char 0)").

(** A keyword argument that is not given, or given as [None]. *)
Definition absent_or_none (kwargs : gmap string pyobj) (name : string) : Prop :=
  kwargs !! name = None \/ kwargs !! name = Some (OVal PyNone).

(** The wrapper raises [WriteOperationError] and leaves the world as
    it is, whatever the wrapped function. *)
Definition denied (A : Type) (course_id_param : string) (args : list pyobj)
    (kwargs : gmap string pyobj) (w : world) : Prop :=
  exists msg : string, forall func : tool A,
    ErrorHandling.require_write_permission course_id_param func args kwargs w
    = (Exc.raise WriteOperationError msg, w).

(** An identifier passes when it is given and the policy allows it. *)
Definition passes_gate (config : MoodleConfig) (course_id : pyobj) : bool :=
  negb (is_none course_id) && ErrorHandling.can_write config course_id.

Definition denial_message (config : MoodleConfig) (course_id_param : string)
    (course_id : pyobj) : string :=
  if is_none course_id
  then "Write operation requires '" +:+ course_id_param +:+ "' parameter"
  else "Write operation blocked for safety:" +:+ ErrorHandling.nl +:+ ErrorHandling.nl
       +:+ ErrorHandling.restriction_message config course_id.

(** A function that sends a request whatever it is called with. *)
Definition sending_tool : tool pyval :=
  fun _ _ => Client.get_site_info (Stub.client Stub.null_server).

(** A call whose context holds a client and no configuration, and a
    call on one course with the context of the stub deployment. *)
Definition no_config_call : gmap string pyobj :=
  <["course_id" := OVal (PyInt 7299)]>
    (<["ctx" := OCtx (Stub.context [("moodle_client", LClient (Stub.client Stub.null_server))])]> ∅).

Definition course_call (course_id : Z) : gmap string pyobj :=
  <["course_id" := OVal (PyInt course_id)]> (<["ctx" := OCtx Stub.ctx]> ∅).

(** ** Vocabulary of the further properties *)

(** Every character of the string satisfies [p]. *)
Fixpoint all_chars (p : ascii -> bool) (s : string) : bool :=
  match s with
  | EmptyString => true
  | String c s' => p c && all_chars p s'
  end.

Definition not_space (c : ascii) : bool := negb (PyString.isspace c).

Definition not_comma (c : ascii) : bool := negb (Ascii.eqb c ","%char).

(** A decimal digit or the minus sign. *)
Definition digit_or_minus (c : ascii) : bool :=
  match PyString.digit_of c with
  | Some _ => true
  | None => Ascii.eqb c "-"%char
  end.

(** [sep.join(pieces)] *)
Fixpoint py_join (sep : string) (pieces : list string) : string :=
  match pieces with
  | [] => EmptyString
  | [piece] => piece
  | piece :: rest => piece +:+ sep +:+ py_join sep rest
  end.

(** The value of a decimal numeral read from the left, continuing from
    [acc]. *)
Fixpoint uint_value (d : Decimal.uint) (acc : Z) : Z :=
  match d with
  | Decimal.Nil => acc
  | Decimal.D0 d' => uint_value d' (10 * acc + 0)
  | Decimal.D1 d' => uint_value d' (10 * acc + 1)
  | Decimal.D2 d' => uint_value d' (10 * acc + 2)
  | Decimal.D3 d' => uint_value d' (10 * acc + 3)
  | Decimal.D4 d' => uint_value d' (10 * acc + 4)
  | Decimal.D5 d' => uint_value d' (10 * acc + 5)
  | Decimal.D6 d' => uint_value d' (10 * acc + 6)
  | Decimal.D7 d' => uint_value d' (10 * acc + 7)
  | Decimal.D8 d' => uint_value d' (10 * acc + 8)
  | Decimal.D9 d' => uint_value d' (10 * acc + 9)
  end.

(** The configuration with another mode string, or another allow-list
    string. *)
Definition with_env (cfg : MoodleConfig) (mode : string) : MoodleConfig :=
  {| env := mode;
     dev_url := dev_url cfg; dev_token := dev_token cfg;
     prod_url := prod_url cfg; prod_token := prod_token cfg;
     api_timeout := api_timeout cfg; max_connections := max_connections cfg;
     max_keepalive_connections := max_keepalive_connections cfg;
     max_response_chars := max_response_chars cfg;
     dev_course_whitelist := dev_course_whitelist cfg;
     prod_allow_writes := prod_allow_writes cfg |}.

Definition with_whitelist (cfg : MoodleConfig) (whitelist : string) : MoodleConfig :=
  {| env := env cfg;
     dev_url := dev_url cfg; dev_token := dev_token cfg;
     prod_url := prod_url cfg; prod_token := prod_token cfg;
     api_timeout := api_timeout cfg; max_connections := max_connections cfg;
     max_keepalive_connections := max_keepalive_connections cfg;
     max_response_chars := max_response_chars cfg;
     dev_course_whitelist := whitelist;
     prod_allow_writes := prod_allow_writes cfg |}.


(** A value that is no dict, list or tuple: [_flatten_params] stores
    its text under the effective key. *)
Definition is_scalar (v : pyval) : bool :=
  match v with
  | PyDict _ | PyList _ | PyTuple _ => false
  | _ => true
  end.

Definition is_dict (v : pyval) : bool :=
  match v with
  | PyDict _ => true
  | _ => false
  end.

(** The names of the entries of a flat dict, in order. *)
Definition flat_keys (d : flat_params) : list string := fst <$> d.

(** The entries a list of values that are no dicts flattens to under
    [key], counting from [i]. *)
Fixpoint indexed_entries (key : string) (i : nat) (l : list pyval) : flat_params :=
  match l with
  | [] => []
  | item :: l' =>
      (key +:+ "[" +:+ PyString.of_nat i +:+ "]", PyVal.str item)
        :: indexed_entries key (S i) l'
  end.

(** The three parameters every request starts with. *)
Definition protocol_params (self : MoodleAPIClient) (function_name : string)
  : flat_params :=
  [("wstoken", token self); ("wsfunction", function_name);
   ("moodlewsrestformat", "json")].


(** The names of the top-level entries of the parameters of a call. *)
Definition top_level_names (params : option (list (string * pyval))) : list string :=
  match params with
  | Some p => fst <$> p
  | None => []
  end.

(** What one entry adds carries the prefix and the name of the entry. *)
Definition stays_under (value : pyval) : Prop :=
  forall (prefix key : string) (flattened : flat_params) (k' : string),
    k' ∈ flat_keys (Client.flatten_item prefix key value flattened) ->
    k' ∈ flat_keys flattened \/ PyString.startswith (prefix +:+ key) k' = true.

(** The same for a value and, when it is a dict, for each of its
    entries. *)
Definition stays_under_deep (value : pyval) : Prop :=
  stays_under value
  /\ match value with
     | PyDict d => Forall (fun kv => stays_under (snd kv)) d
     | _ => True
     end.


(** The classes [_make_request] can raise when the error body is well
    typed, and the one a body with a code or debuginfo of another type
    adds. *)
Definition request_error_classes : list exc_class :=
  [MoodleAuthError; MoodlePermissionError; MoodleNotFoundError; MoodleAPIError;
   MoodleConnectionError].

(** How [handle_moodle_errors] starts its message for an exception, by
    the class of the exception: the label of the handler and then the
    text of the exception, or the name of its class when no handler is
    for it. *)
Definition tool_error_head (e : exn) : string :=
  match exn_class e with
  | MoodleAuthError => "Authentication failed: " +:+ exn_message e
  | MoodlePermissionError | WriteOperationError => "Permission denied: " +:+ exn_message e
  | MoodleNotFoundError => "Not found: " +:+ exn_message e
  | MoodleConnectionError => "Connection error: " +:+ exn_message e
  | MoodleValidationError => "Invalid input: " +:+ exn_message e
  | MoodleAPIError => "Moodle API error: " +:+ exn_message e
  | ValueError => "Validation error: " +:+ exn_message e
  | PyException | TypeError | AttributeError | RuntimeError | ToolError
  | MoodleException =>
      "An unexpected error occurred: " +:+ Exc.name (exn_class e)
  end.


(** A function that raises [RuntimeError], and a call of it with a
    context whose configuration is in production mode. *)
Definition failing_tool : tool pyval :=
  fun _ _ => throw RuntimeError "boom".

Definition production_call : gmap string pyobj :=
  <["ctx" := OCtx (Stub.context
                     (Lifespan.make (Stub.client Stub.null_server)
                        (Stub.config "prod" "7299" false)))]> ∅.

(** The keyword arguments of an import call with the given values and
    context. *)
Definition import_kwargs (source dest : pyval) (ctx : Context) : gmap string pyobj :=
  <["source_course_id" := OVal source]>
    (<["dest_course_id" := OVal dest]> (<["ctx" := OCtx ctx]> ∅)).

(** The parameters of the request of the import. *)
Definition import_request_params (source dest : pyval) : list (string * pyval) :=
  [("importfrom", source); ("importto", dest); ("deletecontent", PyInt 0)].

(** What the import returns when its request succeeds. *)
Definition import_rendered (source dest : pyval) : rendered :=
  {| rendered_data :=
       PyDict [("source_course_id", source); ("dest_course_id", dest);
               ("imported", PyBool true)];
     rendered_title := "Course Content Imported";
     rendered_format := OFieldInfo |}.

(** The message of the gate when an import is denied: the source is
    tested first. *)
Definition import_denial (config : MoodleConfig) (kwargs : gmap string pyobj)
  : string :=
  if passes_gate config (kwargs_get kwargs "source_course_id")
  then denial_message config "dest_course_id" (kwargs_get kwargs "dest_course_id")
  else denial_message config "source_course_id"
         (kwargs_get kwargs "source_course_id").

(** The text of the [ToolError] that [handle_moodle_errors] raises for
    a permission error with message [msg]. *)
Definition permission_denied_text (msg : string) : string :=
  "Permission denied: " +:+ msg +:+ ErrorHandling.nl +:+ ErrorHandling.nl
    +:+ "The current user lacks permission for this operation. "
    +:+ "Try using a different account or contact your Moodle administrator.".


(** Error bodies whose error code, or whose debuginfo, is no string. *)
Definition null_code_body : list (string * pyval) :=
  [("exception", PyStr "moodle_exception"); ("errorcode", PyNone);
   ("message", PyStr "bad")].


(** A value on which [in] raises: no string and no container. *)
Definition not_iterable (v : pyval) : bool :=
  match v with
  | PyNone | PyBool _ | PyInt _ => true
  | _ => false
  end.

(** * Properties *)

(** ** Strings *)

Section StringFacts.

Lemma lstrip_all_space (s : string) :
  all_space s = true -> PyString.lstrip s = EmptyString.
Proof.
  induction s as [|c s IH]; simpl; [reflexivity|].
  intros H. apply andb_prop in H as [Hc Hs]. rewrite Hc. auto.
Qed.

Lemma strip_all_space (s : string) :
  all_space s = true -> PyString.strip s = EmptyString.
Proof.
  intros H. unfold PyString.strip. rewrite lstrip_all_space by assumption.
  reflexivity.
Qed.

Lemma split_nonempty (sep : ascii) (s : string) : PyString.split sep s <> [].
Proof.
  destruct s as [|c s]; simpl; [discriminate|].
  destruct (Ascii.eqb c sep); [discriminate|].
  destruct (PyString.split sep s); discriminate.
Qed.

Lemma split_commas_and_space (s : string) :
  commas_and_space s = true ->
  Forall (fun piece => all_space piece = true) (PyString.split ","%char s).
Proof.
  induction s as [|c s IH]; simpl; intros H.
  - repeat constructor.
  - apply andb_prop in H as [Hc Hs]. specialize (IH Hs).
    destruct (Ascii.eqb c ","%char) eqn:Hcomma.
    + constructor; [reflexivity | exact IH].
    + simpl in Hc.
      destruct (PyString.split ","%char s) as [|piece rest].
      * repeat constructor. simpl. rewrite Hc. reflexivity.
      * inversion IH as [|? ? Hp Hr]; subst.
        constructor; [simpl; rewrite Hc; exact Hp | exact Hr].
Qed.

End StringFacts.

(** ** The allow-list *)

Section Whitelist.

Lemma parse_ids_blank (pieces : list string) :
  Forall (fun piece => all_space piece = true) pieces ->
  Config.parse_ids pieces = Some [].
Proof.
  induction 1 as [|piece rest Hp _ IH]; simpl; [reflexivity|].
  rewrite (strip_all_space piece Hp). simpl. exact IH.
Qed.

Lemma parse_ids_fail (pieces : list string) (entry : string) :
  In entry pieces ->
  PyString.truthy (PyString.strip entry) = true ->
  PyString.int (PyString.strip entry) = None ->
  Config.parse_ids pieces = None.
Proof.
  intros Hin Hne Hint.
  induction pieces as [|piece rest IH]; simpl in *; [contradiction|].
  destruct Hin as [-> | Hin].
  - rewrite Hne, Hint. reflexivity.
  - rewrite (IH Hin).
    destruct (PyString.truthy (PyString.strip piece)); [|reflexivity].
    destruct (PyString.int (PyString.strip piece)); reflexivity.
Qed.

Lemma in_ints_nil (v : pyval) : PyVal.in_ints v [] = false.
Proof. reflexivity. Qed.

End Whitelist.

(** ** The environment switch and the write policy *)

Section WritePolicy.

(** C1.  The mode string is lowered and stripped before it is compared
    with [prod], so the upper-case and the capitalised spellings, and
    the padded one, select production: [is_production] is true and
    [url] is the production URL.  Only a near-match such as
    [production] stays in development. *)
Theorem mode_compare_ignores_case_and_padding :
  Config.is_production (Stub.config "PROD" "7299" false) = true
  /\ Config.is_production (Stub.config "Prod" "7299" false) = true
  /\ Config.is_production (Stub.config " prod " "7299" false) = true
  /\ Config.url (Stub.config "PROD" "7299" false) = "https://prod.example"
  /\ Config.token (Stub.config "PROD" "7299" false) = "prod-token"
  /\ Config.is_production (Stub.config "production" "7299" false) = false.
Proof. repeat split; reflexivity. Qed.

(** C7.  A mode string that is not [prod] once lowered and stripped
    selects development: [is_production] is false, the development URL
    and token are used, and a write is allowed exactly for the members
    of the parsed allow-list. *)
Theorem other_mode_is_development (cfg : MoodleConfig) :
  PyString.strip (PyString.lower (env cfg)) <> "prod" ->
  Config.is_production cfg = false
  /\ Config.is_development cfg = true
  /\ Config.url cfg = dev_url cfg
  /\ Config.token cfg = dev_token cfg
  /\ forall course_id : pyval,
       Config.can_write_to_course cfg course_id
       = PyVal.in_ints course_id (Config._parsed_dev_whitelist cfg).
Proof.
  intros Hne.
  assert (Hprod : Config.is_production cfg = false).
  { unfold Config.is_production. apply String.eqb_neq. exact Hne. }
  unfold Config.is_development, Config.url, Config.token,
    Config.can_write_to_course.
  fold (Config.is_production cfg). rewrite Hprod.
  repeat split; reflexivity.
Qed.

Lemma other_mode_is_development_witness :
  PyString.strip (PyString.lower "production") <> "prod"
  /\ Config.is_production (Stub.config "production" "7299" false) = false
  /\ Config.can_write_to_course (Stub.config "production" "7299" false) (PyInt 7299)
     = true.
Proof.
  assert (H : PyString.strip (PyString.lower "production") <> "prod")
    by (vm_compute; discriminate).
  split; [exact H|].
  destruct (other_mode_is_development (Stub.config "production" "7299" false) H)
    as (Hp & _ & _ & _ & Hw).
  split; [exact Hp|]. rewrite Hw. reflexivity.
Defined.

(** The other two spellings the specification lists. *)
Example dev_and_empty_mode_are_development :
  Config.is_production (Stub.config "dev" "7299" false) = false
  /\ Config.is_production (Stub.config "" "7299" false) = false.
Proof. split; reflexivity. Qed.

(** C4.  In development with the allow-list [[7299]], course 7299 may
    be written and course 1 may not; in production the answer is the
    flag [prod_allow_writes] whatever the course; the flag defaults to
    false. *)
Theorem can_write_to_course_by_mode (cfg : MoodleConfig) :
  (Config.is_production cfg = false ->
   Config._parsed_dev_whitelist cfg = [7299] ->
   Config.can_write_to_course cfg (PyInt 7299) = true
   /\ Config.can_write_to_course cfg (PyInt 1) = false)
  /\ (Config.is_production cfg = true ->
      forall course_id : pyval,
        Config.can_write_to_course cfg course_id = prod_allow_writes cfg)
  /\ (forall e du dt pu pt : string,
        prod_allow_writes (Config.with_defaults e du dt pu pt) = false).
Proof.
  unfold Config.can_write_to_course.
  split; [|split].
  - intros -> ->. split; reflexivity.
  - intros ->. reflexivity.
  - reflexivity.
Qed.

Lemma can_write_to_course_by_mode_witness :
  (Config.can_write_to_course Stub.dev_config (PyInt 7299) = true
   /\ Config.can_write_to_course Stub.dev_config (PyInt 1) = false)
  /\ Config.can_write_to_course (Stub.config "prod" "7299" false) (PyInt 7299) = false
  /\ Config.can_write_to_course (Stub.config "prod" "7299" true) (PyInt 1) = true.
Proof.
  split; [|split].
  - destruct (can_write_to_course_by_mode Stub.dev_config) as [Hdev _].
    apply Hdev; reflexivity.
  - destruct (can_write_to_course_by_mode (Stub.config "prod" "7299" false))
      as (_ & Hprod & _).
    rewrite Hprod; reflexivity.
  - destruct (can_write_to_course_by_mode (Stub.config "prod" "7299" true))
      as (_ & Hprod & _).
    rewrite Hprod; reflexivity.
Defined.

(** C9.  When an entry of the comma-separated allow-list string is not
    blank and is no integer, the parsed allow-list is [[7299]], so in
    development course 7299 may be written whatever the string says.
    Blank entries are skipped: a string of commas and whitespace only
    gives the empty allow-list, and in development every course is
    refused. *)
Theorem dev_whitelist_parsing (cfg : MoodleConfig) :
  (forall entry : string,
      In entry (PyString.split ","%char (dev_course_whitelist cfg)) ->
      PyString.truthy (PyString.strip entry) = true ->
      PyString.int (PyString.strip entry) = None ->
      Config._parsed_dev_whitelist cfg = [7299]
      /\ (Config.is_production cfg = false ->
          Config.can_write_to_course cfg (PyInt 7299) = true))
  /\ (commas_and_space (dev_course_whitelist cfg) = true ->
      Config._parsed_dev_whitelist cfg = []
      /\ (Config.is_production cfg = false ->
          forall course_id : pyval,
            Config.can_write_to_course cfg course_id = false)).
Proof.
  unfold Config.can_write_to_course, Config._parsed_dev_whitelist.
  split.
  - intros entry Hin Hne Hint.
    rewrite (parse_ids_fail _ entry Hin Hne Hint).
    split; [reflexivity|]. intros ->. reflexivity.
  - intros Hblank.
    rewrite (parse_ids_blank _ (split_commas_and_space _ Hblank)).
    split; [reflexivity|]. intros -> course_id. apply in_ints_nil.
Qed.

Lemma dev_whitelist_parsing_witness :
  (Config._parsed_dev_whitelist (Stub.config "dev" "12, abc,34" false) = [7299]
   /\ Config.can_write_to_course (Stub.config "dev" "12, abc,34" false) (PyInt 7299)
      = true)
  /\ (Config._parsed_dev_whitelist (Stub.config "dev" " , ,, " false) = []
      /\ Config.can_write_to_course (Stub.config "dev" " , ,, " false) (PyInt 7299)
         = false).
Proof.
  split.
  - destruct (dev_whitelist_parsing (Stub.config "dev" "12, abc,34" false))
      as [Hbad _].
    destruct (Hbad " abc") as [Hlist Hwrite].
    + simpl. right. left. reflexivity.
    + reflexivity.
    + reflexivity.
    + split; [exact Hlist | apply Hwrite; reflexivity].
  - destruct (dev_whitelist_parsing (Stub.config "dev" " , ,, " false))
      as [_ Hblank].
    destruct (Hblank eq_refl) as [Hlist Hwrite].
    split; [exact Hlist | apply Hwrite; reflexivity].
Defined.

(** The entries that do parse are kept in order, blanks dropped. *)
Example whitelist_of_three :
  Config._parsed_dev_whitelist (Stub.config "dev" "1, 2 ,, 3" false) = [1; 2; 3].
Proof. reflexivity. Qed.

End WritePolicy.

(** ** Parameter flattening *)

Section Flatten.

(** The local recursion of [flatten_item] over the entries of a nested
    dict is [_flatten_params] continued from [acc]. *)
Lemma flatten_entries_fold (d : list (string * pyval)) (p : string) (acc : flat_params) :
  (fix entries (d : list (string * pyval)) (p : string) (acc : flat_params)
       {struct d} : flat_params :=
     match d with
     | [] => acc
     | (k, v) :: d' => entries d' p (Client.flatten_item p k v acc)
     end) d p acc
  = fold_left (fun flattened kv => Client.flatten_item p (fst kv) (snd kv) flattened)
      d acc.
Proof.
  revert acc. induction d as [|[k v] d IH]; intros acc; simpl; [reflexivity|].
  apply IH.
Qed.

(** A nested dict: the recursive call with the prefix [new_key ++ "["],
    then the closing entry when the dict itself sits under a prefix. *)
Lemma flatten_item_dict (prefix key : string) (d : list (string * pyval))
    (flattened : flat_params) :
  Client.flatten_item prefix key (PyDict d) flattened
  = let new_key := if PyString.truthy prefix then prefix +:+ key else key in
    let flattened' :=
      FlatParams.update flattened (Client._flatten_params d (new_key +:+ "[")) in
    if PyString.truthy prefix
    then FlatParams.set flattened' (new_key +:+ "]") ""
    else flattened'.
Proof.
  unfold Client._flatten_params. rewrite <- flatten_entries_fold. reflexivity.
Qed.

(** A scalar: one entry under the effective key. *)
Lemma flatten_item_scalar (prefix key : string) (value : pyval)
    (flattened : flat_params) :
  match value with PyDict _ | PyList _ | PyTuple _ => False | _ => True end ->
  Client.flatten_item prefix key value flattened
  = FlatParams.set flattened
      (if PyString.truthy prefix then prefix +:+ key else key) (PyVal.str value).
Proof. destruct value; simpl; intros H; try contradiction; reflexivity. Qed.

(** C2.  On the two parameter sets of the specification the flattened
    keys lack the bracket that closes the last component: the list of
    user dicts gives [users[0][id] and [users[1][id], the option ids
    give [options[ids[0]], and a request built from the latter has no
    parameter named [options[ids][0]]. *)
Theorem flatten_leaves_last_bracket_open :
  Client._flatten_params
    [("users", PyList [PyDict [("id", PyInt 1)]; PyDict [("id", PyInt 2)]])] ""
  = [("users[0][id", "1"); ("users[1][id", "2")]
  /\ Client._flatten_params [("options", PyDict [("ids", PyList [PyInt 2292])])] ""
     = [("options[ids[0]", "2292")]
  /\ FlatParams.get
       (Client.request_params (Stub.client Stub.null_server) "core_course_get_courses"
          (Some [("options", PyDict [("ids", PyList [PyInt 2292])])]))
       "options[ids][0]" = None.
Proof. repeat split; reflexivity. Qed.

End Flatten.

(** ** Response classification *)

Section Classification.

Lemma either_in_str (a b code : string) :
  Client.either_in a b (PyStr code)
  = Ok (PyString.contains a code || PyString.contains b code).
Proof.
  unfold Client.either_in. simpl.
  destruct (PyString.contains a code); reflexivity.
Qed.

(** [_make_request] sends exactly one request and handles its reply. *)
Lemma make_request_run (self : MoodleAPIClient) (function_name : string)
    (params : option (list (string * pyval))) (w : world) :
  Client._make_request self function_name params w
  = (Client.handle_reply (client_get self w (request_of self function_name params)),
     (w ++ [request_of self function_name params])%list).
Proof. reflexivity. Qed.

(** An error body with a string error code. *)
Lemma classify_error_body (d : list (string * pyval)) (code : string) :
  PyVal.dict_has d "exception" || PyVal.dict_has d "errorcode" = true ->
  PyVal.dict_get d "errorcode" (PyStr "unknown") = PyStr code ->
  Client.classify (PyDict d)
  = let error_msg := PyVal.str (PyVal.dict_get d "message" (PyStr "Unknown error")) in
    if auth_code code
    then Exc.raise MoodleAuthError ("Authentication failed: " +:+ error_msg)
    else if permission_code code
    then Exc.raise MoodlePermissionError ("Permission denied: " +:+ error_msg)
    else if not_found_code code
    then Exc.raise MoodleNotFoundError ("Not found: " +:+ error_msg)
    else match Client.debug_suffix (PyVal.dict_get d "debuginfo" (PyStr "")) with
         | Ok suffix =>
             Exc.raise MoodleAPIError
               ("Moodle API error (" +:+ code +:+ "): " +:+ error_msg +:+ suffix)
         | Raise e => Raise e
         end.
Proof.
  intros Hmark Hcode. unfold Client.classify. rewrite Hmark, Hcode.
  rewrite !either_in_str. fold (auth_code code) (permission_code code)
    (not_found_code code).
  destruct (auth_code code); [reflexivity|].
  destruct (permission_code code); [reflexivity|].
  destruct (not_found_code code); [reflexivity|].
  simpl. destruct (Client.debug_suffix _); reflexivity.
Qed.

(** An error code that is [null], a boolean or a number: the first
    substring test itself raises [TypeError], whatever else the body
    holds. *)
Lemma classify_code_not_iterable (d : list (string * pyval)) (v : pyval) :
  PyVal.dict_has d "exception" || PyVal.dict_has d "errorcode" = true ->
  PyVal.dict_get d "errorcode" (PyStr "unknown") = v ->
  not_iterable v = true ->
  Client.classify (PyDict d)
  = Exc.raise TypeError
      ("argument of type '" +:+ Exc.type_name v +:+ "' is not iterable").
Proof.
  intros Hmark Hcode Hv. unfold Client.classify. rewrite Hmark, Hcode.
  destruct v; try discriminate Hv; reflexivity.
Qed.


End Classification.

Section ClassificationExamples.


(** The first test that matches wins, and an absent error code is the
    string [unknown]. *)
Example classify_priority :
  Client.classify (PyDict [("errorcode", PyStr "notfound_invalidtoken")])
  = Exc.raise MoodleAuthError "Authentication failed: Unknown error"
  /\ Client.classify (PyDict [("exception", PyStr "x")])
     = Exc.raise MoodleAPIError "Moodle API error (unknown): Unknown error".
Proof. split; reflexivity. Qed.

(** A body without the two markers is the result of the call. *)
Lemma classify_success (result : pyval) :
  match result with
  | PyDict d => PyVal.dict_has d "exception" || PyVal.dict_has d "errorcode" = false
  | _ => True
  end ->
  Client.classify result = Ok result.
Proof.
  destruct result; simpl; try reflexivity. intros ->. reflexivity.
Qed.

(** An error code that is no string and no container makes the
    substring test itself fail. *)
Example classify_null_code :
  Client.classify (PyDict [("errorcode", PyNone)])
  = Exc.raise TypeError "argument of type 'NoneType' is not iterable".
Proof. reflexivity. Qed.


End ClassificationExamples.

(** ** The transport *)

Section Transport.

Variable self : MoodleAPIClient.
Variable function_name : string.
Variable params : option (list (string * pyval)).
Variable w : world.

(** What the handler of [HTTPStatusError] raises depends on the status
    alone. *)
Lemma http_status_error_class (status : Z) (text : string) :
  exists msg : string,
    Client.http_status_error status text
    = Exc.raise
        (if (status =? 401) || (status =? 403) then MoodleAuthError
         else if status =? 404 then MoodleNotFoundError
         else MoodleConnectionError) msg.
Proof.
  unfold Client.http_status_error.
  destruct ((status =? 401) || (status =? 403)); [eexists; reflexivity|].
  destruct (status =? 404); eexists; reflexivity.
Qed.

(** C3, as the code has it.  With a 2xx status (200 included), an
    object body that has [exception] or [errorcode] and whose error
    code contains [invalidtoken] makes the call raise the
    authentication error.  With any other status the body is not
    looked at: [raise_for_status] fires first and the status alone
    decides, 401 and 403 giving the authentication error, 404 the
    not-found error and every other one the connection error. *)
Theorem invalid_token_after_status_check (status : Z) (text : string)
    (d : list (string * pyval)) (code : string) :
  client_get self w (request_of self function_name params)
  = Response status text (Json (PyDict d)) ->
  PyVal.dict_has d "exception" || PyVal.dict_has d "errorcode" = true ->
  PyVal.dict_get d "errorcode" (PyStr "unknown") = PyStr code ->
  PyString.contains "invalidtoken" code = true ->
  (Client.is_success status = true ->
   fst (Client._make_request self function_name params w)
   = Exc.raise MoodleAuthError
       ("Authentication failed: "
          +:+ PyVal.str (PyVal.dict_get d "message" (PyStr "Unknown error"))))
  /\ (Client.is_success status = false ->
      exists msg : string,
        fst (Client._make_request self function_name params w)
        = Exc.raise
            (if (status =? 401) || (status =? 403) then MoodleAuthError
             else if status =? 404 then MoodleNotFoundError
             else MoodleConnectionError) msg).
Proof.
  intros Hreply Hmark Hcode Hsub.
  rewrite make_request_run. simpl fst. rewrite Hreply.
  unfold Client.handle_reply.
  split; intros ->.
  - rewrite (classify_error_body d code Hmark Hcode).
    unfold auth_code. rewrite Hsub. reflexivity.
  - apply http_status_error_class.
Qed.

(** C8.  A reply with a 2xx status whose body is not JSON makes the
    call raise [MoodleAPIError] itself, with a message that says so and
    carries the decoder's text. *)
Theorem invalid_json_is_api_error (status : Z) (text msg : string) :
  client_get self w (request_of self function_name params)
  = Response status text (NotJson msg) ->
  Client.is_success status = true ->
  fst (Client._make_request self function_name params w)
  = Exc.raise MoodleAPIError ("Invalid JSON response: " +:+ msg).
Proof.
  intros Hreply Hok.
  rewrite make_request_run. simpl fst. rewrite Hreply.
  unfold Client.handle_reply. rewrite Hok. reflexivity.
Qed.

(** No reply at all is the connection error. *)
Lemma request_error_is_connection_error (msg : string) :
  client_get self w (request_of self function_name params) = RequestError msg ->
  fst (Client._make_request self function_name params w)
  = Exc.raise MoodleConnectionError ("Connection failed: " +:+ msg).
Proof.
  intros Hreply. rewrite make_request_run. simpl fst.
  rewrite Hreply. reflexivity.
Qed.

End Transport.

Section TransportExamples.

(** The invalid-token body behind HTTP 500 and behind HTTP 404: the
    call raises the connection error, respectively the not-found
    error, and not the authentication error. *)
Lemma invalid_token_body_behind_http_error :
  site_info_call (Stub.invalid_token_server 500)
  = Exc.raise MoodleConnectionError "HTTP error 500: Server error"
  /\ site_info_call (Stub.invalid_token_server 404)
     = Exc.raise MoodleNotFoundError "HTTP 404: Resource not found".
Proof. split; reflexivity. Qed.

Lemma invalid_token_after_status_check_witness :
  site_info_call (Stub.invalid_token_server 200)
  = Exc.raise MoodleAuthError "Authentication failed: bad"
  /\ exists msg : string,
       site_info_call (Stub.invalid_token_server 503)
       = Exc.raise MoodleConnectionError msg.
Proof.
  split.
  - destruct (invalid_token_after_status_check
                (Stub.client (Stub.invalid_token_server 200))
                "core_webservice_get_site_info" None [] 200 "Server error"
                [("exception", PyStr "x"); ("errorcode", PyStr "invalidtoken");
                 ("message", PyStr "bad")] "invalidtoken"
                eq_refl eq_refl eq_refl eq_refl) as [H _].
    exact (H eq_refl).
  - destruct (invalid_token_after_status_check
                (Stub.client (Stub.invalid_token_server 503))
                "core_webservice_get_site_info" None [] 503 "Server error"
                [("exception", PyStr "x"); ("errorcode", PyStr "invalidtoken");
                 ("message", PyStr "bad")] "invalidtoken"
                eq_refl eq_refl eq_refl eq_refl) as [_ H].
    exact (H eq_refl).
Defined.

Lemma invalid_json_is_api_error_witness :
  site_info_call html_server
  = Exc.raise MoodleAPIError
      "Invalid JSON response: Expecting value: line 1 column 1 (char 0)".
Proof.
  exact (invalid_json_is_api_error (Stub.client html_server)
           "core_webservice_get_site_info" None [] 200 ""
           "Expecting value: line 1 column 1 (char 0)" eq_refl eq_refl).
Defined.

(** The end-to-end scenarios of the specification: a success value is
    returned as it is, and a login-required body behind HTTP 200 is
    the permission error. *)
Example course_list_is_returned :
  let courses :=
    PyList [PyDict [("id", PyInt 2292); ("fullname", PyStr "X");
                    ("shortname", PyStr "x")]] in
  fst (Client._make_request
         (Stub.client (fun _ _ => Response 200 "" (Json courses)))
         "core_course_get_courses"
         (Some [("options", PyDict [("ids", PyList [PyInt 2292])])]) [])
  = Ok courses.
Proof. reflexivity. Qed.

Example login_required_is_permission_error :
  site_info_call (fun _ _ => Response 200 "" (Json (PyDict login_required_body)))
  = Exc.raise MoodlePermissionError "Permission denied: no".
Proof. reflexivity. Qed.

End TransportExamples.

(** ** The write-permission gate *)

Section Gate.

Context {A : Type}.

Lemma absent_or_none_get (kwargs : gmap string pyobj) (name : string) :
  absent_or_none kwargs name -> kwargs_get kwargs name = OVal PyNone.
Proof. unfold kwargs_get. intros [-> | ->]; reflexivity. Qed.

(** With a context that holds the configuration, the wrapper is the
    wrapped function when the identifier passes and a denial when it
    does not. *)
Lemma gate_with_config (course_id_param : string) (func : tool A)
    (args : list pyobj) (kwargs : gmap string pyobj)
    (ctx : Context) (rc : RequestContext) (config : MoodleConfig) :
  kwargs !! "ctx" = Some (OCtx ctx) ->
  request_context ctx = Some rc ->
  Lifespan.get (lifespan_context rc) "config" = LConfig config ->
  ErrorHandling.require_write_permission course_id_param func args kwargs
  = if passes_gate config (kwargs_get kwargs course_id_param)
    then func args kwargs
    else throw WriteOperationError
           (denial_message config course_id_param (kwargs_get kwargs course_id_param)).
Proof.
  intros Hctx Hrc Hcfg.
  unfold ErrorHandling.require_write_permission, passes_gate, denial_message.
  destruct (is_none (kwargs_get kwargs course_id_param)) eqn:Hnone;
    [reflexivity|].
  unfold kwargs_get at 1. rewrite Hctx, Hrc, Hcfg. simpl.
  destruct (ErrorHandling.can_write config (kwargs_get kwargs course_id_param));
    reflexivity.
Qed.

(** Open the wrapper; and split on whether the identifier is given,
    which settles the case where it is not. *)
Ltac enter_gate := unfold ErrorHandling.require_write_permission.

Ltac gate_on_id kwargs name :=
  let Hnone := fresh "Hnone" in
  destruct (is_none (kwargs_get kwargs name)) eqn:Hnone;
  eexists; intros ?func; enter_gate; rewrite Hnone; [reflexivity|].

(** C10.  The wrapper of [require_write_permission] raises
    [WriteOperationError] without calling the wrapped function, so no
    request is sent, in each of these cases: the identifier argument is
    absent or [None]; the [ctx] argument is absent or [None]; the
    lifespan context has no configuration; the configuration refuses
    the identifier. *)
Theorem write_gate_fails_closed (course_id_param : string) (args : list pyobj)
    (kwargs : gmap string pyobj) (w : world) :
  (absent_or_none kwargs course_id_param -> denied A course_id_param args kwargs w)
  /\ (absent_or_none kwargs "ctx" -> denied A course_id_param args kwargs w)
  /\ (forall (ctx : Context) (rc : RequestContext),
        kwargs !! "ctx" = Some (OCtx ctx) ->
        request_context ctx = Some rc ->
        Lifespan.get (lifespan_context rc) "config" = LNone ->
        denied A course_id_param args kwargs w)
  /\ (forall (ctx : Context) (rc : RequestContext) (config : MoodleConfig),
        kwargs !! "ctx" = Some (OCtx ctx) ->
        request_context ctx = Some rc ->
        Lifespan.get (lifespan_context rc) "config" = LConfig config ->
        ErrorHandling.can_write config (kwargs_get kwargs course_id_param) = false ->
        denied A course_id_param args kwargs w).
Proof.
  unfold denied. repeat apply conj.
  - intros Hid. eexists. intros func. enter_gate.
    rewrite (absent_or_none_get _ _ Hid). reflexivity.
  - intros Hctx. gate_on_id kwargs course_id_param.
    rewrite (absent_or_none_get _ _ Hctx). reflexivity.
  - intros ctx rc Hctx Hrc Hcfg. gate_on_id kwargs course_id_param.
    unfold kwargs_get. rewrite Hctx, Hrc, Hcfg. reflexivity.
  - intros ctx rc config Hctx Hrc Hcfg Hdeny.
    eexists. intros func.
    rewrite (gate_with_config _ func _ _ ctx rc config Hctx Hrc Hcfg).
    unfold passes_gate. rewrite Hdeny, andb_false_r. reflexivity.
Qed.

End Gate.

Section GateExamples.

Lemma write_gate_fails_closed_witness :
  (exists msg : string,
      ErrorHandling.require_write_permission "course_id" sending_tool []
        (<["ctx" := OCtx Stub.ctx]> ∅) []
      = (Exc.raise WriteOperationError msg, []))
  /\ (exists msg : string,
         ErrorHandling.require_write_permission "course_id" sending_tool []
           (<["course_id" := OVal (PyInt 7299)]> ∅) []
         = (Exc.raise WriteOperationError msg, []))
  /\ (exists msg : string,
         ErrorHandling.require_write_permission "course_id" sending_tool []
           no_config_call []
         = (Exc.raise WriteOperationError msg, []))
  /\ (exists msg : string,
         ErrorHandling.require_write_permission "course_id" sending_tool []
           (course_call 1) []
         = (Exc.raise WriteOperationError msg, [])).
Proof.
  split; [|split; [|split]].
  - destruct (write_gate_fails_closed (A := pyval) "course_id" []
                (<["ctx" := OCtx Stub.ctx]> ∅) []) as (H & _).
    destruct H as [msg Hmsg]; [left; reflexivity|].
    exists msg. apply Hmsg.
  - destruct (write_gate_fails_closed (A := pyval) "course_id" []
                (<["course_id" := OVal (PyInt 7299)]> ∅) []) as (_ & H & _).
    destruct H as [msg Hmsg]; [left; reflexivity|].
    exists msg. apply Hmsg.
  - destruct (write_gate_fails_closed (A := pyval) "course_id" []
                no_config_call []) as (_ & _ & H & _).
    destruct (H _ _ eq_refl eq_refl eq_refl) as [msg Hmsg].
    exists msg. apply Hmsg.
  - destruct (write_gate_fails_closed (A := pyval) "course_id" []
                (course_call 1) []) as (_ & _ & _ & H).
    destruct (H _ _ _ eq_refl eq_refl eq_refl eq_refl) as [msg Hmsg].
    exists msg. apply Hmsg.
Defined.

(** The same function behind the gate does send its request when the
    course is on the allow-list. *)
Example allowed_call_reaches_the_tool :
  snd (ErrorHandling.require_write_permission "course_id" sending_tool []
         (course_call 7299) [])
  = [request_of (Stub.client Stub.null_server) "core_webservice_get_site_info" None].
Proof. reflexivity. Qed.

End GateExamples.

(** ** The course import *)

Section CourseImport.

(** The outermost decorator turns a denial of the gate into a
    [ToolError] that carries its message; the world is as the gate
    left it. *)
Lemma handle_write_denial {A : Type} (func : tool A) (args : list pyobj)
    (kwargs : gmap string pyobj) (w w' : world) (msg : string) :
  func args kwargs w = (Exc.raise WriteOperationError msg, w') ->
  exists text : string,
    ErrorHandling.handle_moodle_errors func args kwargs w
    = (Exc.raise ToolError ("Permission denied: " +:+ msg +:+ text), w').
Proof.
  intros Hrun. eexists.
  unfold ErrorHandling.handle_moodle_errors, try_except. rewrite Hrun.
  simpl. unfold ErrorHandling.tool_error, throw. reflexivity.
Qed.

(** With a context that holds the configuration, the two gates in
    front of the import: the source is tested first, then the
    destination, then the function runs. *)
Lemma write_gated_import_run (args : list pyobj) (kwargs : gmap string pyobj)
    (ctx : Context) (rc : RequestContext) (config : MoodleConfig) :
  kwargs !! "ctx" = Some (OCtx ctx) ->
  request_context ctx = Some rc ->
  Lifespan.get (lifespan_context rc) "config" = LConfig config ->
  Courses.write_gated_import args kwargs
  = if passes_gate config (kwargs_get kwargs "source_course_id")
    then if passes_gate config (kwargs_get kwargs "dest_course_id")
         then Courses.import_course_content args kwargs
         else throw WriteOperationError
                (denial_message config "dest_course_id"
                   (kwargs_get kwargs "dest_course_id"))
    else throw WriteOperationError
           (denial_message config "source_course_id"
              (kwargs_get kwargs "source_course_id")).
Proof.
  intros Hctx Hrc Hcfg. unfold Courses.write_gated_import.
  rewrite (gate_with_config "source_course_id" _ _ _ ctx rc config Hctx Hrc Hcfg).
  rewrite (gate_with_config "dest_course_id" _ _ _ ctx rc config Hctx Hrc Hcfg).
  reflexivity.
Qed.

(** C6, as amended.  With a context that holds the configuration: as
    soon as one of [source_course_id] and [dest_course_id] does not
    pass the gate, whether or not the other one passes, the two gates
    raise [WriteOperationError] with the message of the first gate
    that fails and nothing is sent; the registered tool
    [moodle_import_course_content], whose outermost decorator is
    [handle_moodle_errors], raises that denial as a [ToolError]
    ([Permission denied: ...]), again with nothing sent.  When both
    pass, the gates are the undecorated function, and the registered
    tool is that function under [handle_moodle_errors]. *)
Theorem import_requires_both_courses (args : list pyobj)
    (kwargs : gmap string pyobj) (ctx : Context) (rc : RequestContext)
    (config : MoodleConfig) (w : world) :
  kwargs !! "ctx" = Some (OCtx ctx) ->
  request_context ctx = Some rc ->
  Lifespan.get (lifespan_context rc) "config" = LConfig config ->
  let source := kwargs_get kwargs "source_course_id" in
  let dest := kwargs_get kwargs "dest_course_id" in
  (passes_gate config source && passes_gate config dest = false ->
   Courses.write_gated_import args kwargs w
   = (Exc.raise WriteOperationError (import_denial config kwargs), w)
   /\ Courses.moodle_import_course_content args kwargs w
      = (Exc.raise ToolError (permission_denied_text (import_denial config kwargs)),
         w))
  /\ (passes_gate config source && passes_gate config dest = true ->
      Courses.write_gated_import args kwargs w
      = Courses.import_course_content args kwargs w
      /\ Courses.moodle_import_course_content args kwargs w
         = ErrorHandling.handle_moodle_errors Courses.import_course_content
             args kwargs w).
Proof.
  intros Hctx Hrc Hcfg source dest.
  unfold Courses.moodle_import_course_content, ErrorHandling.handle_moodle_errors,
    try_except.
  rewrite (write_gated_import_run args kwargs ctx rc config Hctx Hrc Hcfg).
  unfold import_denial. fold source dest.
  destruct (passes_gate config source); simpl.
  - destruct (passes_gate config dest); split; intros H; try discriminate H;
      split; reflexivity.
  - split; intros H; try discriminate H. split; reflexivity.
Qed.

Lemma import_requires_both_courses_witness :
  Courses.moodle_import_course_content [] (Stub.import_call 7299 1) []
  = (Exc.raise ToolError
       (permission_denied_text
          (import_denial Stub.dev_config (Stub.import_call 7299 1))), [])
  /\ Courses.moodle_import_course_content [] (Stub.import_call 1 7299) []
     = (Exc.raise ToolError
          (permission_denied_text
             (import_denial Stub.dev_config (Stub.import_call 1 7299))), [])
  /\ Courses.moodle_import_course_content [] (Stub.import_call 7299 7299) []
     = ErrorHandling.handle_moodle_errors Courses.import_course_content []
         (Stub.import_call 7299 7299) [].
Proof.
  split; [|split].
  - destruct (import_requires_both_courses [] (Stub.import_call 7299 1) _ _ _ []
                eq_refl eq_refl eq_refl) as [H _].
    exact (proj2 (H eq_refl)).
  - destruct (import_requires_both_courses [] (Stub.import_call 1 7299) _ _ _ []
                eq_refl eq_refl eq_refl) as [H _].
    exact (proj2 (H eq_refl)).
  - destruct (import_requires_both_courses [] (Stub.import_call 7299 7299) _ _ _ []
                eq_refl eq_refl eq_refl) as [_ H].
    exact (proj2 (H eq_refl)).
Defined.

(** C6, counterexample.  With the destination off the allow-list the
    registered tool does not raise [WriteOperationError]: what its
    caller gets is a [ToolError]. *)
Lemma import_denial_reaches_caller_as_tool_error :
  exists msg : string,
    Courses.moodle_import_course_content [] (Stub.import_call 7299 1) []
    = (Exc.raise ToolError msg, [])
    /\ PyString.startswith "Permission denied: Write operation blocked for safety:"
         msg = true.
Proof. eexists. split; reflexivity. Qed.

(** What the registered tool shows of a denial: a [ToolError] whose
    message starts with the denial, and still no request. *)
Lemma import_denial_as_tool_error (args : list pyobj)
    (kwargs : gmap string pyobj) (ctx : Context) (rc : RequestContext)
    (config : MoodleConfig) (w : world) :
  kwargs !! "ctx" = Some (OCtx ctx) ->
  request_context ctx = Some rc ->
  Lifespan.get (lifespan_context rc) "config" = LConfig config ->
  passes_gate config (kwargs_get kwargs "source_course_id")
  && passes_gate config (kwargs_get kwargs "dest_course_id") = false ->
  exists msg : string,
    Courses.moodle_import_course_content args kwargs w
    = (Exc.raise ToolError ("Permission denied: " +:+ msg), w).
Proof.
  intros Hctx Hrc Hcfg Hfail.
  assert (Hdeny : exists msg : string,
             Courses.write_gated_import args kwargs w
             = (Exc.raise WriteOperationError msg, w)).
  { rewrite (write_gated_import_run args kwargs ctx rc config Hctx Hrc Hcfg).
    destruct (passes_gate config (kwargs_get kwargs "source_course_id"));
      [|eexists; reflexivity].
    destruct (passes_gate config (kwargs_get kwargs "dest_course_id"));
      [discriminate|eexists; reflexivity]. }
  destruct Hdeny as [msg Hmsg].
  destruct (handle_write_denial _ _ _ _ _ _ Hmsg) as [text Htext].
  exists (msg +:+ text). exact Htext.
Qed.

(** When both courses are on the allow-list the import sends its one
    request, with both identifiers. *)
Example allowed_import_sends_request :
  snd (Courses.moodle_import_course_content [] (Stub.import_call 7299 7299) [])
  = [{| req_url := "https://moodle.example/webservice/rest/server.php";
        req_params :=
          [("wstoken", "secret"); ("wsfunction", "core_course_import_course");
           ("moodlewsrestformat", "json"); ("importfrom", "7299");
           ("importto", "7299"); ("deletecontent", "0")] |}].
Proof. reflexivity. Qed.

End CourseImport.

(** * Further properties *)

(** ** Stripping, lowering, searching *)

Section MoreStringFacts.

Lemma all_space_app (a b : string) :
  all_space (a +:+ b) = all_space a && all_space b.
Proof.
  induction a as [|c a IH]; simpl; [reflexivity|].
  rewrite IH, andb_assoc. reflexivity.
Qed.

Lemma lstrip_app_space (pre s : string) :
  all_space pre = true -> PyString.lstrip (pre +:+ s) = PyString.lstrip s.
Proof.
  induction pre as [|c pre IH]; simpl; [reflexivity|].
  intros H. apply andb_prop in H as [Hc Hp]. rewrite Hc. auto.
Qed.

Lemma lstrip_app_keep (s suf : string) :
  all_space s = false -> PyString.lstrip (s +:+ suf) = PyString.lstrip s +:+ suf.
Proof.
  induction s as [|c s IH]; simpl; [discriminate|].
  destruct (PyString.isspace c); simpl; [exact IH | reflexivity].
Qed.

Lemma rstrip_all_space (s : string) :
  all_space s = true -> PyString.rstrip s = EmptyString.
Proof.
  induction s as [|c s IH]; simpl; [reflexivity|].
  intros H. apply andb_prop in H as [Hc Hs]. rewrite (IH Hs), Hc. reflexivity.
Qed.

Lemma rstrip_app_space (s suf : string) :
  all_space suf = true -> PyString.rstrip (s +:+ suf) = PyString.rstrip s.
Proof.
  intros Hsuf. induction s as [|c s IH]; simpl.
  - apply rstrip_all_space, Hsuf.
  - rewrite IH. reflexivity.
Qed.

Lemma lstrip_all_space_false (s : string) :
  all_space s = false -> all_space (PyString.lstrip s) = false.
Proof.
  induction s as [|c s IH]; simpl; [discriminate|].
  destruct (PyString.isspace c) eqn:Hc; simpl; [exact IH|].
  intros _. rewrite Hc. reflexivity.
Qed.

(** Whitespace around a string does not change what [strip] gives. *)
Lemma strip_padding (pre s suf : string) :
  all_space pre = true -> all_space suf = true ->
  PyString.strip (pre +:+ s +:+ suf) = PyString.strip s.
Proof.
  intros Hpre Hsuf. unfold PyString.strip.
  rewrite (lstrip_app_space pre _ Hpre).
  destruct (all_space s) eqn:Hs.
  - rewrite (lstrip_all_space s Hs).
    rewrite lstrip_all_space by (rewrite all_space_app, Hs, Hsuf; reflexivity).
    reflexivity.
  - rewrite (lstrip_app_keep s suf Hs). apply rstrip_app_space, Hsuf.
Qed.

Lemma lower_app (a b : string) :
  PyString.lower (a +:+ b) = PyString.lower a +:+ PyString.lower b.
Proof.
  induction a as [|c a IH]; simpl; [reflexivity|]. rewrite IH. reflexivity.
Qed.

Lemma lower_char_space (c : ascii) :
  PyString.isspace c = true -> PyString.lower_char c = c.
Proof.
  destruct c as [[] [] [] [] [] [] [] []]; vm_compute; intros H;
    first [reflexivity | discriminate H].
Qed.

Lemma lower_char_idem (c : ascii) :
  PyString.lower_char (PyString.lower_char c) = PyString.lower_char c.
Proof. destruct c as [[] [] [] [] [] [] [] []]; vm_compute; reflexivity. Qed.

Lemma lower_all_space (s : string) :
  all_space s = true -> PyString.lower s = s.
Proof.
  induction s as [|c s IH]; simpl; [reflexivity|].
  intros H. apply andb_prop in H as [Hc Hs].
  rewrite (lower_char_space c Hc), (IH Hs). reflexivity.
Qed.

Lemma lower_idem (s : string) : PyString.lower (PyString.lower s) = PyString.lower s.
Proof.
  induction s as [|c s IH]; simpl; [reflexivity|].
  rewrite lower_char_idem, IH. reflexivity.
Qed.

Lemma all_chars_impl (p q : ascii -> bool) (s : string) :
  (forall c, p c = true -> q c = true) ->
  all_chars p s = true -> all_chars q s = true.
Proof.
  intros Hpq. induction s as [|c s IH]; simpl; [reflexivity|].
  intros H. apply andb_prop in H as [Hc Hs]. rewrite (Hpq c Hc), (IH Hs).
  reflexivity.
Qed.

Lemma lstrip_not_space (s : string) :
  all_chars not_space s = true -> PyString.lstrip s = s.
Proof.
  destruct s as [|c s]; simpl; [reflexivity|]. unfold not_space.
  destruct (PyString.isspace c); [discriminate | reflexivity].
Qed.

Lemma rstrip_not_space (s : string) :
  all_chars not_space s = true -> PyString.rstrip s = s.
Proof.
  induction s as [|c s IH]; simpl; [reflexivity|]. unfold not_space at 1.
  intros H. apply andb_prop in H as [Hc Hs]. rewrite (IH Hs).
  destruct s; [|reflexivity].
  destruct (PyString.isspace c); [discriminate | reflexivity].
Qed.

(** A string without whitespace is its own [strip]. *)
Lemma strip_not_space (s : string) :
  all_chars not_space s = true -> PyString.strip s = s.
Proof.
  intros H. unfold PyString.strip.
  rewrite (lstrip_not_space s H). apply rstrip_not_space, H.
Qed.

Lemma startswith_app (p s : string) : PyString.startswith p (p +:+ s) = true.
Proof.
  induction p as [|c p IH]; simpl; [reflexivity|].
  rewrite Ascii.eqb_refl. exact IH.
Qed.

(** A string occurs in whatever is built around it. *)
Lemma contains_app (before needle after : string) :
  PyString.contains needle (before +:+ needle +:+ after) = true.
Proof.
  induction before as [|c before IH]; simpl.
  - destruct (needle +:+ after) eqn:E; simpl;
      rewrite <- E, startswith_app; reflexivity.
  - rewrite IH. apply orb_true_r.
Qed.

End MoreStringFacts.

(** ** Decimal numerals *)

Section Decimal.

Lemma of_uint_acc_value (d : Decimal.uint) (p : positive) :
  Z.pos (Pos.of_uint_acc d p) = uint_value d (Z.pos p).
Proof.
  revert p. induction d as [|d IH|d IH|d IH|d IH|d IH|d IH|d IH|d IH|d IH|d IH];
    intros p; simpl; [reflexivity|..]; rewrite IH; f_equal; lia.
Qed.

Lemma of_uint_value (d : Decimal.uint) : Z.of_uint d = uint_value d 0.
Proof.
  unfold Z.of_uint.
  induction d as [|d IH|d IH|d IH|d IH|d IH|d IH|d IH|d IH|d IH|d IH];
    simpl; [reflexivity | exact IH |..]; apply of_uint_acc_value.
Qed.

(** Reading the digits that [string_of_uint] prints, after at least
    one digit. *)
Lemma int_digits_numeral (d : Decimal.uint) (acc : Z) :
  PyString.int_digits (NilEmpty.string_of_uint d) acc true = Some (uint_value d acc).
Proof.
  revert acc. induction d as [|d IH|d IH|d IH|d IH|d IH|d IH|d IH|d IH|d IH|d IH];
    intros acc; simpl; [reflexivity|..]; apply IH.
Qed.

Lemma int_digits_numeral_start (d : Decimal.uint) :
  d <> Decimal.Nil ->
  PyString.int_digits (NilEmpty.string_of_uint d) 0 false = Some (Z.of_uint d).
Proof.
  intros Hd. rewrite of_uint_value.
  destruct d; [contradiction|..]; simpl; apply int_digits_numeral.
Qed.

Lemma numeral_chars (d : Decimal.uint) :
  all_chars digit_or_minus (NilEmpty.string_of_uint d) = true.
Proof. induction d; simpl; auto. Qed.

Lemma nilzero_numeral (d : Decimal.uint) :
  d <> Decimal.Nil -> NilZero.string_of_uint d = NilEmpty.string_of_uint d.
Proof. destruct d; [contradiction|..]; reflexivity. Qed.

Lemma of_Z_pos (p : positive) :
  PyString.of_Z (Z.pos p) = NilEmpty.string_of_uint (Pos.to_uint p).
Proof.
  unfold PyString.of_Z. simpl.
  apply nilzero_numeral, DecimalPos.Unsigned.to_uint_nonnil.
Qed.

Lemma of_Z_neg (p : positive) :
  PyString.of_Z (Z.neg p) = String "-"%char (NilEmpty.string_of_uint (Pos.to_uint p)).
Proof.
  unfold PyString.of_Z. simpl. f_equal.
  apply nilzero_numeral, DecimalPos.Unsigned.to_uint_nonnil.
Qed.

Lemma of_Z_chars (n : Z) : all_chars digit_or_minus (PyString.of_Z n) = true.
Proof.
  destruct n as [|p|p]; [reflexivity|..].
  - rewrite of_Z_pos. apply numeral_chars.
  - rewrite of_Z_neg. simpl. apply numeral_chars.
Qed.

Lemma digit_or_minus_not_space (c : ascii) :
  digit_or_minus c = true -> not_space c = true.
Proof.
  destruct c as [[] [] [] [] [] [] [] []]; vm_compute; intros H;
    first [reflexivity | discriminate H].
Qed.

Lemma digit_or_minus_not_comma (c : ascii) :
  digit_or_minus c = true -> not_comma c = true.
Proof.
  destruct c as [[] [] [] [] [] [] [] []]; vm_compute; intros H;
    first [reflexivity | discriminate H].
Qed.

Lemma of_Z_not_space (n : Z) : all_chars not_space (PyString.of_Z n) = true.
Proof.
  apply (all_chars_impl digit_or_minus), of_Z_chars.
  apply digit_or_minus_not_space.
Qed.

Lemma of_Z_not_comma (n : Z) : all_chars not_comma (PyString.of_Z n) = true.
Proof.
  apply (all_chars_impl digit_or_minus), of_Z_chars.
  apply digit_or_minus_not_comma.
Qed.

Lemma of_Z_truthy (n : Z) : PyString.truthy (PyString.of_Z n) = true.
Proof.
  destruct n as [|p|p]; [reflexivity| |rewrite of_Z_neg; reflexivity].
  rewrite of_Z_pos.
  pose proof (DecimalPos.Unsigned.to_uint_nonnil p) as Hnil.
  destruct (Pos.to_uint p); [contradiction|..]; reflexivity.
Qed.

Lemma of_uint_to_uint (p : positive) : Z.of_uint (Pos.to_uint p) = Z.pos p.
Proof. unfold Z.of_uint. rewrite DecimalPos.Unsigned.of_to. reflexivity. Qed.

(** A printed numeral starts with a digit, so [int] reads it as a
    literal without sign. *)
Lemma int_numeral (d : Decimal.uint) :
  d <> Decimal.Nil ->
  match NilEmpty.string_of_uint d with
  | String "+"%char r => PyString.int_literal r
  | String "-"%char r => Z.opp <$> PyString.int_literal r
  | r => PyString.int_literal r
  end = PyString.int_literal (NilEmpty.string_of_uint d).
Proof. destruct d; [contradiction|..]; reflexivity. Qed.

(** [int(str(n))] for an integer: [n] when its digits are within the
    limit, [ValueError] otherwise. *)
Lemma int_of_Z_cases (n : Z) :
  PyString.int (PyString.of_Z n)
  = if PyString.max_str_digits <? PyString.count_digits (PyString.of_Z n)
    then None else Some n.
Proof.
  unfold PyString.int. rewrite (strip_not_space _ (of_Z_not_space n)).
  destruct n as [|p|p]; [reflexivity|..].
  - rewrite of_Z_pos.
    pose proof (DecimalPos.Unsigned.to_uint_nonnil p) as Hnil.
    etransitivity; [exact (int_numeral _ Hnil)|]. unfold PyString.int_literal.
    destruct (_ <? _); [reflexivity|].
    rewrite (int_digits_numeral_start _ Hnil), of_uint_to_uint. reflexivity.
  - rewrite of_Z_neg. unfold PyString.int_literal.
    change (PyString.count_digits (String "-"%char ?t))
      with (PyString.count_digits t).
    destruct (_ <? _); [reflexivity|].
    rewrite (int_digits_numeral_start _ (DecimalPos.Unsigned.to_uint_nonnil p)).
    rewrite of_uint_to_uint. reflexivity.
Qed.

(** [int(str(n)) == n] for every integer within the digit limit. *)
Lemma int_of_Z (n : Z) :
  PyString.count_digits (PyString.of_Z n) <= PyString.max_str_digits ->
  PyString.int (PyString.of_Z n) = Some n.
Proof.
  intros H. rewrite int_of_Z_cases. apply Z.ltb_ge in H. rewrite H. reflexivity.
Qed.

(** Past the limit [int(str(n))] raises [ValueError]. *)
Lemma int_of_Z_over_limit (n : Z) :
  PyString.max_str_digits < PyString.count_digits (PyString.of_Z n) ->
  PyString.int (PyString.of_Z n) = None.
Proof.
  intros H. rewrite int_of_Z_cases. apply Z.ltb_lt in H. rewrite H. reflexivity.
Qed.

End Decimal.

(** ** More on the configuration *)

Section MoreConfig.

Lemma split_without_sep (s : string) :
  all_chars not_comma s = true -> PyString.split ","%char s = [s].
Proof.
  induction s as [|c s IH]; simpl; [reflexivity|]. unfold not_comma at 1.
  intros H. apply andb_prop in H as [Hc Hs].
  destruct (Ascii.eqb c ","%char); [discriminate|]. rewrite (IH Hs). reflexivity.
Qed.

Lemma split_app_sep (s rest : string) :
  all_chars not_comma s = true ->
  PyString.split ","%char (s +:+ "," +:+ rest) = s :: PyString.split ","%char rest.
Proof.
  induction s as [|c s IH]; simpl; [reflexivity|]. unfold not_comma at 1.
  intros H. apply andb_prop in H as [Hc Hs].
  destruct (Ascii.eqb c ","%char); [discriminate|].
  change (s +:+ String ","%char rest) with (s +:+ "," +:+ rest).
  rewrite (IH Hs). reflexivity.
Qed.

(** Splitting what was joined with commas gives the pieces back. *)
Lemma split_join (pieces : list string) :
  pieces <> [] ->
  Forall (fun piece => all_chars not_comma piece = true) pieces ->
  PyString.split ","%char (py_join "," pieces) = pieces.
Proof.
  intros Hne Hall. induction Hall as [|piece rest Hp Hrest IH]; [contradiction|].
  destruct rest as [|next rest]; simpl.
  - apply split_without_sep, Hp.
  - change (piece +:+ String ","%char ?t) with (piece +:+ "," +:+ t).
    rewrite (split_app_sep _ _ Hp). f_equal. apply IH. discriminate.
Qed.

Lemma parse_ids_of_Z (ids : list Z) :
  Forall (fun n => PyString.count_digits (PyString.of_Z n)
                   <= PyString.max_str_digits) ids ->
  Config.parse_ids (PyString.of_Z <$> ids) = Some ids.
Proof.
  induction 1 as [|n ids Hn _ IH]; [reflexivity|].
  rewrite fmap_cons. cbn [Config.parse_ids].
  rewrite (strip_not_space _ (of_Z_not_space n)), of_Z_truthy, (int_of_Z n Hn), IH.
  reflexivity.
Qed.

(** One identifier past the digit limit makes the comprehension raise. *)
Lemma parse_ids_over_limit (ids : list Z) (n : Z) :
  In n ids ->
  PyString.max_str_digits < PyString.count_digits (PyString.of_Z n) ->
  Config.parse_ids (PyString.of_Z <$> ids) = None.
Proof.
  intros Hin Hn. induction ids as [|m ids IH]; [contradiction|].
  rewrite fmap_cons. cbn [Config.parse_ids].
  rewrite (strip_not_space _ (of_Z_not_space m)), of_Z_truthy.
  destruct Hin as [-> | Hin].
  - rewrite (int_of_Z_over_limit n Hn). reflexivity.
  - rewrite (IH Hin). destruct (PyString.int (PyString.of_Z m)); reflexivity.
Qed.

Lemma of_Z_pieces_not_comma (ids : list Z) :
  Forall (fun piece => all_chars not_comma piece = true) (PyString.of_Z <$> ids).
Proof.
  induction ids as [|n ids IH]; constructor; [apply of_Z_not_comma | exact IH].
Qed.

(** X1.  Round trip of the allow-list: when the configured string is
    the decimal renderings of a list of integers joined by commas, each
    of at most 4300 digits (the limit [int] puts on one literal), the
    parsed allow-list is that list, in order, and in development a
    course may be written exactly when its identifier is in the list. *)
Theorem whitelist_round_trip (cfg : MoodleConfig) (ids : list Z) :
  dev_course_whitelist cfg = py_join "," (PyString.of_Z <$> ids) ->
  Forall (fun n => PyString.count_digits (PyString.of_Z n)
                   <= PyString.max_str_digits) ids ->
  Config._parsed_dev_whitelist cfg = ids
  /\ (Config.is_production cfg = false ->
      forall course_id : Z,
        Config.can_write_to_course cfg (PyInt course_id) = true <-> In course_id ids).
Proof.
  intros Hstr Hdigits.
  assert (Hparsed : Config._parsed_dev_whitelist cfg = ids).
  { unfold Config._parsed_dev_whitelist. rewrite Hstr.
    destruct ids as [|n ids]; [reflexivity|].
    rewrite split_join.
    - rewrite (parse_ids_of_Z _ Hdigits). reflexivity.
    - discriminate.
    - apply of_Z_pieces_not_comma. }
  split; [exact Hparsed|].
  intros Hdev course_id. unfold Config.can_write_to_course.
  rewrite Hdev, Hparsed. unfold PyVal.in_ints. rewrite existsb_exists.
  split.
  - intros (m & Hin & Heq). simpl in Heq. apply Z.eqb_eq in Heq. subst. exact Hin.
  - intros Hin. exists course_id. split; [exact Hin | apply Z.eqb_refl].
Qed.

Lemma whitelist_round_trip_witness :
  Config._parsed_dev_whitelist (Stub.config "dev" "7299,-3,0,12" false)
  = [7299; -3; 0; 12].
Proof.
  refine (proj1 (whitelist_round_trip (Stub.config "dev" "7299,-3,0,12" false)
                   [7299; -3; 0; 12] eq_refl _)).
  repeat constructor; vm_compute; discriminate.
Defined.

(** Past the limit the comprehension raises [ValueError] and the
    property falls back to the safe default, whatever else is listed. *)
Lemma whitelist_over_limit (cfg : MoodleConfig) (ids : list Z) (n : Z) :
  dev_course_whitelist cfg = py_join "," (PyString.of_Z <$> ids) ->
  In n ids ->
  PyString.max_str_digits < PyString.count_digits (PyString.of_Z n) ->
  Config._parsed_dev_whitelist cfg = [7299].
Proof.
  intros Hstr Hin Hn. unfold Config._parsed_dev_whitelist. rewrite Hstr.
  rewrite split_join.
  - rewrite (parse_ids_over_limit ids n Hin Hn). reflexivity.
  - destruct ids; [contradiction | discriminate].
  - apply of_Z_pieces_not_comma.
Qed.

(** X2.  Whitespace around the mode string and the case of its letters
    do not change the mode: padding it, or lowering it, leaves
    [is_production], and with it the URL and the token selected, as
    they were. *)
Theorem mode_ignores_padding_and_case (cfg : MoodleConfig) (pre suf : string) :
  all_space pre = true -> all_space suf = true ->
  (Config.is_production (with_env cfg (pre +:+ env cfg +:+ suf))
   = Config.is_production cfg
   /\ Config.url (with_env cfg (pre +:+ env cfg +:+ suf)) = Config.url cfg
   /\ Config.token (with_env cfg (pre +:+ env cfg +:+ suf)) = Config.token cfg)
  /\ (Config.is_production (with_env cfg (PyString.lower (env cfg)))
      = Config.is_production cfg
      /\ Config.url (with_env cfg (PyString.lower (env cfg))) = Config.url cfg
      /\ Config.token (with_env cfg (PyString.lower (env cfg))) = Config.token cfg).
Proof.
  intros Hpre Hsuf.
  assert (Hpad : PyString.strip (PyString.lower (pre +:+ env cfg +:+ suf))
                 = PyString.strip (PyString.lower (env cfg))).
  { rewrite !lower_app, (lower_all_space pre Hpre), (lower_all_space suf Hsuf).
    apply strip_padding; assumption. }
  unfold Config.is_production, Config.url, Config.token. simpl.
  rewrite Hpad, lower_idem. repeat split; reflexivity.
Qed.

Lemma mode_ignores_padding_and_case_witness :
  Config.is_production (with_env (Stub.config "pRoD" "7299" false) "  pRoD ")
  = Config.is_production (Stub.config "pRoD" "7299" false).
Proof.
  exact (proj1 (proj1 (mode_ignores_padding_and_case
                         (Stub.config "pRoD" "7299" false)
                         "  " " " eq_refl eq_refl))).
Defined.

(** X3.  The URL, the token and the displayed environment name always
    belong to the same instance: all three are the production ones when
    [is_production] holds and the development ones otherwise. *)
Theorem url_token_name_agree (cfg : MoodleConfig) :
  (Config.is_production cfg = true
   /\ Config.url cfg = prod_url cfg /\ Config.token cfg = prod_token cfg
   /\ Config.environment_name cfg = "PRODUCTION"
   /\ Config.is_development cfg = false)
  \/ (Config.is_production cfg = false
      /\ Config.url cfg = dev_url cfg /\ Config.token cfg = dev_token cfg
      /\ Config.environment_name cfg = "DEVELOPMENT"
      /\ Config.is_development cfg = true).
Proof.
  unfold Config.is_development, Config.url, Config.token, Config.environment_name,
    Config.is_production.
  destruct (String.eqb _ "prod"); [left | right]; repeat split; reflexivity.
Qed.

Lemma append_assoc (a b c : string) : (a +:+ b) +:+ c = a +:+ b +:+ c.
Proof.
  induction a as [|x a IH]; [reflexivity|].
  change (String x ((a +:+ b) +:+ c) = String x (a +:+ b +:+ c)).
  rewrite IH. reflexivity.
Qed.

Lemma append_nil_r (a : string) : a +:+ "" = a.
Proof.
  induction a as [|x a IH]; [reflexivity|].
  change (String x (a +:+ "") = String x a). rewrite IH. reflexivity.
Qed.

Lemma contains_skip (needle before s : string) :
  PyString.contains needle s = true ->
  PyString.contains needle (before +:+ s) = true.
Proof.
  intros H. induction before as [|c before IH]; simpl; [exact H|].
  rewrite IH. apply orb_true_r.
Qed.

Lemma contains_start (a b after : string) :
  PyString.contains (a +:+ b) (a +:+ b +:+ after) = true.
Proof.
  rewrite <- (append_assoc a b after).
  exact (contains_app "" (a +:+ b) after).
Qed.

(** X4.  The restriction message names what was attempted and the
    policy in force: it contains the line with the course identifier,
    and then the value of [prod_allow_writes] in production, the parsed
    allow-list in development. *)
Theorem restriction_message_names_target (cfg : MoodleConfig) (course_id : pyval) :
  let msg := Config.get_write_restriction_message cfg course_id in
  PyString.contains ("Attempted: Course " +:+ PyVal.str course_id) msg = true
  /\ (if Config.is_production cfg
      then PyString.contains
             ("Safety: prod_allow_writes="
                +:+ PyVal.str (PyBool (prod_allow_writes cfg))) msg
      else PyString.contains
             ("Allowed: "
                +:+ PyVal.str (PyList (PyInt <$> Config._parsed_dev_whitelist cfg)))
             msg) = true.
Proof.
  unfold Config.get_write_restriction_message.
  destruct (Config.is_production cfg); cbv zeta; split.
  - do 2 apply contains_skip. apply contains_start.
  - do 5 apply contains_skip.
    rewrite <- (append_nil_r (_ +:+ PyVal.str _)) at 2.
    exact (contains_app "" _ "").
  - do 2 apply contains_skip. apply contains_start.
  - do 5 apply contains_skip. apply contains_start.
Qed.

End MoreConfig.

(** ** Flat dicts *)

Section FlatDicts.

Lemma get_set (d : flat_params) (k v k' : string) :
  FlatParams.get (FlatParams.set d k v) k'
  = if String.eqb k k' then Some v else FlatParams.get d k'.
Proof.
  induction d as [|[k0 v0] d IH]; simpl.
  - reflexivity.
  - destruct (String.eqb k0 k) eqn:E0; simpl.
    + apply String.eqb_eq in E0. subst k0.
      destruct (String.eqb k k'); reflexivity.
    + destruct (String.eqb k0 k') eqn:E1; [|exact IH].
      apply String.eqb_eq in E1. subst k0. rewrite String.eqb_sym, E0.
      reflexivity.
Qed.

Lemma flat_keys_cons (k v : string) (d : flat_params) :
  flat_keys ((k, v) :: d) = k :: flat_keys d.
Proof. reflexivity. Qed.

Lemma get_none_keys (d : flat_params) (k : string) :
  FlatParams.get d k = None <-> k ∉ flat_keys d.
Proof.
  induction d as [|[k0 v0] d IH].
  - split; [intros _; apply not_elem_of_nil | reflexivity].
  - rewrite flat_keys_cons, not_elem_of_cons. cbn [FlatParams.get].
    destruct (String.eqb k0 k) eqn:E.
    + apply String.eqb_eq in E. split; [discriminate | intros [Hne _]; congruence].
    + apply String.eqb_neq in E. rewrite IH. split; [intros H; split; congruence | tauto].
Qed.

(** Storing under a new key appends; storing under a known key keeps
    the order of the keys. *)
Lemma set_fresh (d : flat_params) (k v : string) :
  k ∉ flat_keys d -> FlatParams.set d k v = (d ++ [(k, v)])%list.
Proof.
  induction d as [|[k0 v0] d IH]; intros Hk; [reflexivity|].
  rewrite flat_keys_cons, not_elem_of_cons in Hk. destruct Hk as [Hne Hk].
  cbn [FlatParams.set].
  destruct (String.eqb k0 k) eqn:E.
  - apply String.eqb_eq in E. congruence.
  - rewrite (IH Hk). reflexivity.
Qed.

Lemma keys_set_prefix (d : flat_params) (k v : string) :
  exists more, flat_keys (FlatParams.set d k v) = (flat_keys d ++ more)%list.
Proof.
  induction d as [|[k0 v0] d IH]; cbn [FlatParams.set].
  - exists [k]. reflexivity.
  - destruct (String.eqb k0 k).
    + exists []. rewrite app_nil_r. reflexivity.
    + destruct IH as [more Hmore]. exists more.
      rewrite !flat_keys_cons, Hmore. reflexivity.
Qed.

Lemma keys_update_prefix (d other : flat_params) :
  exists more, flat_keys (FlatParams.update d other) = (flat_keys d ++ more)%list.
Proof.
  unfold FlatParams.update. revert d.
  induction other as [|[k v] other IH]; intros d; simpl.
  - exists []. rewrite app_nil_r. reflexivity.
  - destruct (IH (FlatParams.set d k v)) as [more Hmore].
    destruct (keys_set_prefix d k v) as [more0 Hmore0].
    exists (more0 ++ more)%list. rewrite Hmore, Hmore0, <- app_assoc. reflexivity.
Qed.

(** What [update] leaves under a key: the last value [other] has for
    it, else what was there. *)
Lemma get_update (d other : flat_params) (k : string) :
  FlatParams.get (FlatParams.update d other) k
  = match FlatParams.get (rev other) k with
    | Some v => Some v
    | None => FlatParams.get d k
    end.
Proof.
  unfold FlatParams.update. revert d.
  induction other as [|[k0 v0] other IH]; intros d; simpl; [reflexivity|].
  rewrite IH, get_set.
  assert (Happ : forall a b, FlatParams.get (a ++ b)%list k
                   = match FlatParams.get a k with
                     | Some v => Some v
                     | None => FlatParams.get b k
                     end).
  { intros a b. induction a as [|[ka va] a IHa]; simpl; [reflexivity|].
    destruct (String.eqb ka k); [reflexivity | exact IHa]. }
  rewrite Happ. simpl.
  destruct (FlatParams.get (rev other) k); [reflexivity|].
  destruct (String.eqb k0 k); reflexivity.
Qed.

Lemma get_rev_nodup (d : flat_params) (k : string) :
  NoDup (flat_keys d) -> FlatParams.get (rev d) k = FlatParams.get d k.
Proof.
  induction d as [|[k0 v0] d IH]; intros Hnd; [reflexivity|].
  rewrite flat_keys_cons in Hnd. apply NoDup_cons in Hnd as [Hk0 Hnd].
  cbn [rev FlatParams.get].
  assert (Happ : forall a b, FlatParams.get (a ++ b)%list k
                   = match FlatParams.get a k with
                     | Some v => Some v
                     | None => FlatParams.get b k
                     end).
  { intros a b. induction a as [|[ka va] a IHa]; simpl; [reflexivity|].
    destruct (String.eqb ka k); [reflexivity | exact IHa]. }
  rewrite Happ, (IH Hnd). simpl.
  destruct (String.eqb k0 k) eqn:E.
  - apply String.eqb_eq in E. subst.
    assert (Hnone : FlatParams.get d k = None).
    { apply get_none_keys. exact Hk0. }
    rewrite Hnone. reflexivity.
  - destruct (FlatParams.get d k); reflexivity.
Qed.

End FlatDicts.

(** ** More on flattening *)

Section MoreFlatten.

Lemma new_key_append (prefix key : string) :
  (if PyString.truthy prefix then prefix +:+ key else key) = prefix +:+ key.
Proof. destruct prefix; reflexivity. Qed.

Lemma flatten_item_is_scalar (prefix key : string) (value : pyval)
    (flattened : flat_params) :
  is_scalar value = true ->
  Client.flatten_item prefix key value flattened
  = FlatParams.set flattened (prefix +:+ key) (PyVal.str value).
Proof.
  intros Hs. rewrite <- new_key_append.
  destruct value; try discriminate Hs; reflexivity.
Qed.

Lemma flatten_scalars_from (params : list (string * pyval)) (acc : flat_params) :
  NoDup (fst <$> params) ->
  (forall k, k ∈ fst <$> params -> k ∉ flat_keys acc) ->
  Forall (fun kv => is_scalar (snd kv) = true) params ->
  fold_left (fun flattened kv => Client.flatten_item "" (fst kv) (snd kv) flattened)
    params acc
  = (acc ++ ((fun kv => (fst kv, PyVal.str (snd kv))) <$> params))%list.
Proof.
  revert acc. induction params as [|[k v] params IH]; intros acc Hnd Hfresh Hsc.
  - simpl. rewrite app_nil_r. reflexivity.
  - rewrite fmap_cons in Hnd. apply NoDup_cons in Hnd as [Hk Hnd].
    inversion Hsc as [|? ? Hv Hrest]; subst. simpl in Hv, Hk.
    cbn [fold_left fst snd]. rewrite (flatten_item_is_scalar "" k v acc Hv).
    change ("" +:+ k) with k.
    rewrite set_fresh by (apply Hfresh; rewrite fmap_cons; left).
    rewrite IH; [|exact Hnd| |exact Hrest].
    + rewrite fmap_cons, <- app_assoc. reflexivity.
    + intros k' Hk'. unfold flat_keys. rewrite fmap_app, elem_of_app.
      intros [Hin | Hin].
      * apply (Hfresh k'); [rewrite fmap_cons; right; exact Hk' | exact Hin].
      * simpl in Hin. apply list_elem_of_singleton in Hin. subst. exact (Hk Hk').
Qed.

(** X5.  A dict of scalars, already flat, passes through: each entry
    keeps its name and its place and carries the text of its value, so
    a caller that writes the bracketed names itself gets them sent as
    written. *)
Theorem flat_params_pass_through (params : list (string * pyval)) :
  NoDup (fst <$> params) ->
  Forall (fun kv => is_scalar (snd kv) = true) params ->
  Client._flatten_params params ""
  = (fun kv => (fst kv, PyVal.str (snd kv))) <$> params.
Proof.
  intros Hnd Hsc. unfold Client._flatten_params.
  rewrite (flatten_scalars_from params [] Hnd); [reflexivity| |exact Hsc].
  intros k _. apply not_elem_of_nil.
Qed.

Lemma flat_params_pass_through_witness :
  Client._flatten_params
    [("courses[0][id]", PyInt 7299); ("courses[0][visible]", PyInt 1);
     ("courses[0][fullname]", PyStr "Algebra")] ""
  = [("courses[0][id]", "7299"); ("courses[0][visible]", "1");
     ("courses[0][fullname]", "Algebra")].
Proof.
  apply (flat_params_pass_through
           [("courses[0][id]", PyInt 7299); ("courses[0][visible]", PyInt 1);
            ("courses[0][fullname]", PyStr "Algebra")]).
  - compute_done.
  - repeat constructor.
Defined.

End MoreFlatten.

(** ** Lists of values *)

Section FlattenLists.

Lemma of_nat_decode (i : nat) :
  Nat.of_uint <$> NilZero.uint_of_string (PyString.of_nat i) = Some i.
Proof.
  unfold PyString.of_nat.
  destruct (NilZero.usu_gen (Nat.to_uint i)) as [H | H]; rewrite H; simpl; f_equal.
  - apply DecimalNat.Unsigned.of_to.
  - destruct (Nat.to_uint i) eqn:E;
      try (rewrite NilZero.usu in H by discriminate; injection H as H;
           rewrite <- (DecimalNat.Unsigned.of_to i), E, H; reflexivity).
    rewrite <- (DecimalNat.Unsigned.of_to i), E. reflexivity.
Qed.

Lemma of_nat_inj (i j : nat) : PyString.of_nat i = PyString.of_nat j -> i = j.
Proof.
  intros H. pose proof (of_nat_decode i) as Hi. rewrite H, of_nat_decode in Hi.
  congruence.
Qed.

Lemma append_length (a b : string) :
  String.length (a +:+ b) = (String.length a + String.length b)%nat.
Proof.
  induction a as [|x a IH]; [reflexivity|].
  change (S (String.length (a +:+ b)) = S (String.length a + String.length b)).
  rewrite IH. reflexivity.
Qed.

Lemma append_inj_r (a b c : string) : a +:+ c = b +:+ c -> a = b.
Proof.
  revert b. induction a as [|x a IH]; intros [|y b] H.
  - reflexivity.
  - change (c = String y (b +:+ c)) in H.
    apply (f_equal String.length) in H.
    change (String.length c = S (String.length (b +:+ c))) in H.
    rewrite append_length in H. lia.
  - change (String x (a +:+ c) = c) in H.
    apply (f_equal String.length) in H.
    change (S (String.length (a +:+ c)) = String.length c) in H.
    rewrite append_length in H. lia.
  - change (String x (a +:+ c) = String y (b +:+ c)) in H.
    injection H as -> H. f_equal. apply IH, H.
Qed.

(** Two positions of a list never share a name. *)
Lemma index_key_inj (key : string) (i j : nat) :
  key +:+ "[" +:+ PyString.of_nat i +:+ "]" = key +:+ "[" +:+ PyString.of_nat j +:+ "]" ->
  i = j.
Proof.
  intros H. apply (inj (String.append key)) in H.
  apply (inj (String.append "[")) in H.
  apply append_inj_r in H. apply of_nat_inj, H.
Qed.

Lemma indexed_entries_keys (key : string) (i : nat) (l : list pyval) (k : string) :
  k ∈ flat_keys (indexed_entries key i l) ->
  exists j, (i <= j)%nat /\ k = key +:+ "[" +:+ PyString.of_nat j +:+ "]".
Proof.
  revert i. induction l as [|item l IH]; intros i; cbn [indexed_entries].
  - intros H. apply elem_of_nil in H. contradiction.
  - rewrite flat_keys_cons, elem_of_cons. intros [-> | H].
    + exists i. split; [lia | reflexivity].
    + destruct (IH _ H) as (j & Hj & ->). exists j. split; [lia | reflexivity].
Qed.

(** X6.  A list or tuple whose items are no dicts is sent one
    parameter per position, named [key[0]], [key[1]], ... in order, each
    with the text of its item; an item that is itself a list is sent as
    the text of that list. *)
Theorem list_items_indexed_from_zero (key : string) (l : list pyval) :
  Forall (fun item => is_dict item = false) l ->
  Client._flatten_params [(key, PyList l)] "" = indexed_entries key 0 l
  /\ Client._flatten_params [(key, PyTuple l)] "" = indexed_entries key 0 l.
Proof.
  intros Hnd. unfold Client._flatten_params. cbn [fold_left fst snd].
  assert (Hgen : forall items : list pyval -> nat -> flat_params -> flat_params,
             (forall i fl, items [] i fl = fl) ->
             (forall item l' i fl,
                 is_dict item = false ->
                 items (item :: l') i fl
                 = items l' (S i)
                     (FlatParams.set fl (key +:+ "[" +:+ PyString.of_nat i +:+ "]")
                        (PyVal.str item))) ->
             forall l, Forall (fun item => is_dict item = false) l ->
             forall i fl,
               (forall j, (i <= j)%nat ->
                          key +:+ "[" +:+ PyString.of_nat j +:+ "]" ∉ flat_keys fl) ->
               items l i fl = (fl ++ indexed_entries key i l)%list).
  { intros items Hnil Hstep l0 Hl0.
    induction Hl0 as [|item l0 Hitem _ IH]; intros i fl Hfresh.
    - rewrite Hnil. simpl. rewrite app_nil_r. reflexivity.
    - rewrite (Hstep _ _ _ _ Hitem). rewrite set_fresh by (apply Hfresh; lia).
      rewrite IH.
      + rewrite <- app_assoc. reflexivity.
      + intros j Hj. unfold flat_keys. rewrite fmap_app, elem_of_app.
        intros [Hin | Hin].
        * apply (Hfresh j); [lia | exact Hin].
        * simpl in Hin. apply list_elem_of_singleton in Hin.
          apply index_key_inj in Hin. lia. }
  split.
  - simpl Client.flatten_item.
    match goal with
    | |- ?items l 0%nat [] = _ =>
        rewrite (Hgen items); [reflexivity| | |exact Hnd|]
    end.
    + reflexivity.
    + intros item l0 i fl Hitem. destruct item; try discriminate Hitem; reflexivity.
    + intros j _. apply not_elem_of_nil.
  - simpl Client.flatten_item.
    match goal with
    | |- ?items l 0%nat [] = _ =>
        rewrite (Hgen items); [reflexivity| | |exact Hnd|]
    end.
    + reflexivity.
    + intros item l0 i fl Hitem. destruct item; try discriminate Hitem; reflexivity.
    + intros j _. apply not_elem_of_nil.
Qed.

Lemma list_items_indexed_from_zero_witness :
  Client._flatten_params
    [("ids", PyList [PyInt 5; PyStr "a"; PyList [PyInt 1; PyInt 2]; PyNone])] ""
  = [("ids[0]", "5"); ("ids[1]", "a"); ("ids[2]", "[1, 2]"); ("ids[3]", "None")].
Proof.
  apply (list_items_indexed_from_zero "ids"
           [PyInt 5; PyStr "a"; PyList [PyInt 1; PyInt 2]; PyNone]).
  repeat constructor.
Defined.

End FlattenLists.

(** ** The namespace of flattened names *)

Section Namespace.

(** Induction on values that reaches into lists, tuples and dicts. *)
Lemma pyval_nested_ind (P : pyval -> Prop) :
  P PyNone ->
  (forall b, P (PyBool b)) ->
  (forall n, P (PyInt n)) ->
  (forall s, P (PyStr s)) ->
  (forall l, Forall P l -> P (PyList l)) ->
  (forall l, Forall P l -> P (PyTuple l)) ->
  (forall d, Forall (fun kv => P (snd kv)) d -> P (PyDict d)) ->
  forall v, P v.
Proof.
  intros HN HB HI HS HL HT HD. fix IH 1. intros [ | b | n | s | l | l | d].
  - exact HN.
  - apply HB.
  - apply HI.
  - apply HS.
  - apply HL. revert l. fix IHl 1. intros [|x l]; constructor; [apply IH | apply IHl].
  - apply HT. revert l. fix IHl 1. intros [|x l]; constructor; [apply IH | apply IHl].
  - apply HD. revert d. fix IHd 1. intros [|[k x] d]; constructor; [apply IH | apply IHd].
Qed.

Lemma keys_set_in (d : flat_params) (k v k' : string) :
  k' ∈ flat_keys (FlatParams.set d k v) -> k' ∈ flat_keys d \/ k' = k.
Proof.
  induction d as [|[k0 v0] d IH]; cbn [FlatParams.set].
  - rewrite flat_keys_cons, elem_of_cons. intros [-> | H]; [right; reflexivity | left; exact H].
  - destruct (String.eqb k0 k); rewrite !flat_keys_cons, !elem_of_cons.
    + intros [-> | H]; left; [left; reflexivity | right; exact H].
    + intros [-> | H]; [left; left; reflexivity|].
      destruct (IH H) as [Hin | ->]; [left; right; exact Hin | right; reflexivity].
Qed.

Lemma keys_update_in (d other : flat_params) (k' : string) :
  k' ∈ flat_keys (FlatParams.update d other) ->
  k' ∈ flat_keys d \/ k' ∈ flat_keys other.
Proof.
  unfold FlatParams.update. revert d.
  induction other as [|[k v] other IH]; intros d; cbn [fold_left fst snd].
  - intros H. left. exact H.
  - intros H. rewrite flat_keys_cons, elem_of_cons.
    destruct (IH _ H) as [Hin | Hin]; [|right; right; exact Hin].
    destruct (keys_set_in _ _ _ _ Hin) as [Hd | ->]; [left; exact Hd | right; left; reflexivity].
Qed.

Lemma startswith_app_l (a b s : string) :
  PyString.startswith (a +:+ b) s = true -> PyString.startswith a s = true.
Proof.
  revert s. induction a as [|x a IH]; intros s; [reflexivity|].
  change (String x a +:+ b) with (String x (a +:+ b)).
  destruct s as [|y s]; cbn [PyString.startswith]; [discriminate|].
  intros H. apply andb_prop in H as [Hxy Hs]. rewrite Hxy, (IH _ Hs). reflexivity.
Qed.

Lemma startswith_self_app (a b : string) : PyString.startswith a (a +:+ b) = true.
Proof. apply startswith_app. Qed.

Lemma entries_stay_under (d : list (string * pyval)) :
  Forall (fun kv => stays_under (snd kv)) d ->
  forall (prefix : string) (acc : flat_params) (k' : string),
    k' ∈ flat_keys
           (fold_left (fun flattened kv =>
                         Client.flatten_item prefix (fst kv) (snd kv) flattened) d acc) ->
    k' ∈ flat_keys acc
    \/ exists key, key ∈ fst <$> d /\ PyString.startswith (prefix +:+ key) k' = true.
Proof.
  induction 1 as [|[k v] d Hv _ IH]; intros prefix acc k'; cbn [fold_left fst snd].
  - intros H. left. exact H.
  - intros H. destruct (IH _ _ _ H) as [Hin | (key & Hkey & Hsw)].
    + destruct (Hv _ _ _ _ Hin) as [Hacc | Hsw]; [left; exact Hacc|].
      right. exists k. split; [rewrite fmap_cons; left | exact Hsw].
    + right. exists key. split; [rewrite fmap_cons; right; exact Hkey | exact Hsw].
Qed.

Lemma flatten_dict_stays_under (d : list (string * pyval)) (prefix : string)
    (k' : string) :
  Forall (fun kv => stays_under (snd kv)) d ->
  k' ∈ flat_keys (Client._flatten_params d prefix) ->
  exists key, key ∈ fst <$> d /\ PyString.startswith (prefix +:+ key) k' = true.
Proof.
  intros Hd H. destruct (entries_stay_under d Hd prefix [] k' H) as [Hnil | Hex].
  - apply elem_of_nil in Hnil. contradiction.
  - exact Hex.
Qed.

Lemma startswith_refl (a : string) : PyString.startswith a a = true.
Proof.
  induction a as [|x a IH]; [reflexivity|]. cbn [PyString.startswith].
  rewrite Ascii.eqb_refl, IH. reflexivity.
Qed.

Lemma set_stays_under (fl : flat_params) (nk rest v k' : string) :
  k' ∈ flat_keys (FlatParams.set fl (nk +:+ rest) v) ->
  k' ∈ flat_keys fl \/ PyString.startswith nk k' = true.
Proof.
  intros Hv. destruct (keys_set_in _ _ _ _ Hv) as [Hfl | ->]; [left; exact Hfl|].
  right. apply startswith_self_app.
Qed.

Lemma items_stay_under (nk : string)
    (items : list pyval -> nat -> flat_params -> flat_params) :
  (forall i fl, items [] i fl = fl) ->
  (forall item l' i fl,
      items (item :: l') i fl
      = items l' (S i)
          match item with
          | PyDict d =>
              FlatParams.update fl
                (Client._flatten_params d (nk +:+ "[" +:+ PyString.of_nat i +:+ "]["))
          | _ => FlatParams.set fl (nk +:+ "[" +:+ PyString.of_nat i +:+ "]")
                   (PyVal.str item)
          end) ->
  forall l, Forall stays_under_deep l ->
  forall i fl k',
    k' ∈ flat_keys (items l i fl) ->
    k' ∈ flat_keys fl \/ PyString.startswith nk k' = true.
Proof.
  intros Hnil Hstep l Hl. induction Hl as [|item l Hitem _ IH]; intros i fl k'.
  - rewrite Hnil. intros H. left. exact H.
  - rewrite Hstep. intros H. destruct (IH _ _ _ H) as [Hin | Hsw]; [|right; exact Hsw].
    destruct item as [ | b | n | s | l0 | l0 | d];
      try (apply (set_stays_under _ _ _ _ _ Hin)).
    destruct (keys_update_in _ _ _ Hin) as [Hfl | Hsub]; [left; exact Hfl|].
    right. destruct Hitem as [_ Hd].
    destruct (flatten_dict_stays_under _ _ _ Hd Hsub) as (key & _ & Hsw).
    apply startswith_app_l in Hsw. apply startswith_app_l in Hsw. exact Hsw.
Qed.

Lemma all_stay_under (value : pyval) : stays_under_deep value.
Proof.
  induction value as [ | b | n | s | l IH | l IH | d IH] using pyval_nested_ind.
  1-4: (split; [|exact I]; intros prefix key fl k' H;
        rewrite flatten_item_is_scalar in H by reflexivity;
        destruct (keys_set_in _ _ _ _ H) as [Hfl | ->];
        [left; exact Hfl | right; apply startswith_refl]).
  - split; [|exact I]. intros prefix key fl k' H.
    cbn [Client.flatten_item] in H. rewrite new_key_append in H.
    revert H.
    match goal with
    | |- _ ∈ flat_keys (?items l 0%nat fl) -> _ =>
        apply (items_stay_under (prefix +:+ key) items)
    end; [reflexivity | | exact IH].
    intros item l' i fl0. destruct item; try reflexivity.
    unfold Client._flatten_params. rewrite <- flatten_entries_fold. reflexivity.
  - split; [|exact I]. intros prefix key fl k' H.
    cbn [Client.flatten_item] in H. rewrite new_key_append in H.
    revert H.
    match goal with
    | |- _ ∈ flat_keys (?items l 0%nat fl) -> _ =>
        apply (items_stay_under (prefix +:+ key) items)
    end; [reflexivity | | exact IH].
    intros item l' i fl0. destruct item; try reflexivity.
    unfold Client._flatten_params. rewrite <- flatten_entries_fold. reflexivity.
  - assert (Hd : Forall (fun kv => stays_under (snd kv)) d).
    { eapply Forall_impl; [exact IH|]. intros kv [Hkv _]. exact Hkv. }
    split; [|exact Hd]. intros prefix key fl k' H.
    rewrite flatten_item_dict in H. cbv zeta in H. rewrite new_key_append in H.
    assert (Hupd : forall k0,
               k0 ∈ flat_keys
                      (FlatParams.update fl
                         (Client._flatten_params d ((prefix +:+ key) +:+ "["))) ->
               k0 ∈ flat_keys fl \/ PyString.startswith (prefix +:+ key) k0 = true).
    { intros k0 Hk0. destruct (keys_update_in _ _ _ Hk0) as [Hfl | Hsub];
        [left; exact Hfl|].
      right. destruct (flatten_dict_stays_under _ _ _ Hd Hsub) as (k1 & _ & Hsw).
      apply startswith_app_l in Hsw. apply startswith_app_l in Hsw. exact Hsw. }
    destruct (PyString.truthy prefix); [|apply Hupd, H].
    destruct (keys_set_in _ _ _ _ H) as [Hin | ->]; [apply Hupd, Hin|].
    right. apply startswith_self_app.
Qed.

Lemma flatten_names_under_top_level (params : list (string * pyval))
    (prefix name : string) :
  name ∈ flat_keys (Client._flatten_params params prefix) ->
  exists key, key ∈ fst <$> params
              /\ PyString.startswith (prefix +:+ key) name = true.
Proof.
  apply flatten_dict_stays_under.
  apply Forall_forall. intros kv _. apply all_stay_under.
Qed.

(** X7.  Every name [_flatten_params] produces starts with the prefix
    followed by the name of a top-level entry of the parameters: what
    one entry contributes never lands under the name of another. *)
Theorem flattened_names_stay_in_namespace (params : list (string * pyval))
    (prefix name : string) :
  name ∈ flat_keys (Client._flatten_params params prefix) ->
  exists key, key ∈ fst <$> params
              /\ PyString.startswith (prefix +:+ key) name = true.
Proof. apply flatten_names_under_top_level. Qed.

Lemma flattened_names_stay_in_namespace_witness :
  exists key, key ∈ ["options"; "ids"]
              /\ PyString.startswith key "options[ids[0]" = true.
Proof.
  apply (flattened_names_stay_in_namespace
           [("options", PyDict [("ids", PyList [PyInt 2292])]); ("ids", PyList [])]
           "" "options[ids[0]").
  compute_done.
Defined.

End Namespace.

(** ** The request *)

Section Request.

Lemma get_some_keys (d : flat_params) (k v : string) :
  FlatParams.get d k = Some v -> k ∈ flat_keys d.
Proof.
  intros H. destruct (decide (k ∈ flat_keys d)) as [Hin | Hout]; [exact Hin|].
  apply get_none_keys in Hout. congruence.
Qed.

Lemma flat_keys_rev (d : flat_params) (k : string) :
  k ∈ flat_keys (rev d) -> k ∈ flat_keys d.
Proof.
  induction d as [|[k0 v0] d IH]; [auto|].
  cbn [rev]. rewrite flat_keys_cons. unfold flat_keys in *.
  rewrite fmap_app. intros H. apply elem_of_app in H. apply elem_of_cons.
  destruct H as [H | H]; [right; apply IH, H|].
  left. apply elem_of_cons in H.
  destruct H as [H | H]; [exact H | apply elem_of_nil in H; contradiction].
Qed.

Lemma request_params_unfold (self : MoodleAPIClient) (function_name : string)
    (params : option (list (string * pyval))) :
  Client.request_params self function_name params
  = FlatParams.update (protocol_params self function_name)
      (match params with
       | Some p => Client._flatten_params p ""
       | None => []
       end).
Proof.
  destruct params as [[|kv p]|]; reflexivity.
Qed.

(** X8.  Every request starts with the three protocol parameters, in
    their order, whatever the parameters of the call; and each of them
    carries the value of the client (the token, the function name, the
    format [json]) as long as no top-level parameter name is a prefix
    of its name. *)
Theorem protocol_params_lead_request (self : MoodleAPIClient)
    (function_name : string) (params : option (list (string * pyval))) :
  (exists more,
      flat_keys (Client.request_params self function_name params)
      = (["wstoken"; "wsfunction"; "moodlewsrestformat"] ++ more)%list)
  /\ forall name,
       (forall key, key ∈ top_level_names params ->
                    PyString.startswith key name = false) ->
       FlatParams.get (Client.request_params self function_name params) name
       = FlatParams.get (protocol_params self function_name) name.
Proof.
  rewrite request_params_unfold. split.
  - apply (keys_update_prefix (protocol_params self function_name)).
  - intros name Hfree. rewrite get_update.
    destruct (FlatParams.get (rev _) name) as [v|] eqn:Hget; [|reflexivity].
    exfalso. apply get_some_keys, flat_keys_rev in Hget.
    destruct params as [p|]; [|apply elem_of_nil in Hget; exact Hget].
    destruct (flatten_names_under_top_level p "" name Hget) as (key & Hkey & Hsw).
    change ("" +:+ key) with key in Hsw.
    rewrite (Hfree key Hkey) in Hsw. discriminate.
Qed.

End Request.

Section RequestValues.

Lemma protocol_params_lead_request_witness :
  FlatParams.get
    (Client.request_params (Stub.client Stub.null_server) "core_course_get_courses"
       (Some [("options", PyDict [("ids", PyList [PyInt 2292])])]))
    "wstoken"
  = Some "secret".
Proof.
  destruct (protocol_params_lead_request (Stub.client Stub.null_server)
              "core_course_get_courses"
              (Some [("options", PyDict [("ids", PyList [PyInt 2292])])]))
    as [_ H].
  rewrite (H "wstoken"); [reflexivity|].
  intros key Hkey. cbn in Hkey. apply list_elem_of_singleton in Hkey. subst key.
  reflexivity.
Defined.

Lemma stringified_keys (params : list (string * pyval)) :
  flat_keys ((fun kv => (fst kv, PyVal.str (snd kv))) <$> params) = fst <$> params.
Proof.
  induction params as [|[k v] params IH]; [reflexivity|].
  rewrite !fmap_cons, flat_keys_cons, IH. reflexivity.
Qed.

Lemma get_stringified (params : list (string * pyval)) (k : string) (v : pyval) :
  NoDup (fst <$> params) -> (k, v) ∈ params ->
  FlatParams.get ((fun kv => (fst kv, PyVal.str (snd kv))) <$> params) k
  = Some (PyVal.str v).
Proof.
  induction params as [|[k0 v0] params IH]; intros Hnd Hin.
  - apply elem_of_nil in Hin. contradiction.
  - rewrite fmap_cons in Hnd. apply NoDup_cons in Hnd as [Hk0 Hnd].
    rewrite fmap_cons. cbn [FlatParams.get fst snd].
    apply elem_of_cons in Hin as [Heq | Hin].
    + injection Heq as -> ->. rewrite String.eqb_refl. reflexivity.
    + destruct (String.eqb k0 k) eqn:E; [|apply IH; assumption].
      apply String.eqb_eq in E. subst k0. exfalso. apply Hk0.
      apply list_elem_of_fmap. exists (k, v). split; [reflexivity | exact Hin].
Qed.

(** X9.  For a call whose parameters are a dict of scalars, every
    parameter reaches the request under its own name with the text of
    its value, also when that name is one of the protocol parameters:
    a parameter named [wstoken] or [wsfunction] replaces the value of
    the client. *)
Theorem caller_parameters_win (self : MoodleAPIClient) (function_name : string)
    (params : list (string * pyval)) (k : string) (v : pyval) :
  NoDup (fst <$> params) ->
  Forall (fun kv => is_scalar (snd kv) = true) params ->
  (k, v) ∈ params ->
  FlatParams.get (Client.request_params self function_name (Some params)) k
  = Some (PyVal.str v).
Proof.
  intros Hnd Hsc Hin. rewrite request_params_unfold, get_update.
  unfold Client._flatten_params.
  rewrite (flatten_scalars_from params [] Hnd);
    [|intros k0 _; apply not_elem_of_nil | exact Hsc].
  rewrite app_nil_l, get_rev_nodup by (rewrite stringified_keys; exact Hnd).
  rewrite (get_stringified params k v Hnd Hin). reflexivity.
Qed.

Lemma caller_parameters_win_witness :
  FlatParams.get
    (Client.request_params (Stub.client Stub.null_server) "core_course_get_courses"
       (Some [("courseid", PyInt 5); ("wsfunction", PyStr "core_user_delete_users")]))
    "wsfunction"
  = Some "core_user_delete_users".
Proof.
  apply (caller_parameters_win (Stub.client Stub.null_server)
           "core_course_get_courses"
           [("courseid", PyInt 5); ("wsfunction", PyStr "core_user_delete_users")]
           "wsfunction" (PyStr "core_user_delete_users")).
  - compute_done.
  - repeat constructor.
  - repeat constructor.
Defined.

End RequestValues.

(** ** What a call returns and raises *)

Section CallOutcomes.

Lemma str_in_raises (needle : string) (v : pyval) (e : exn) :
  Client.str_in needle v = Raise e -> exn_class e = TypeError.
Proof. destruct v; simpl; intros H; try discriminate H; injection H as <-; reflexivity. Qed.

Lemma either_in_raises (a b : string) (v : pyval) (e : exn) :
  Client.either_in a b v = Raise e -> exn_class e = TypeError.
Proof.
  unfold Client.either_in. destruct (Client.str_in a v) as [[]|e0] eqn:Ha.
  - discriminate.
  - apply str_in_raises.
  - intros H. injection H as <-. exact (str_in_raises _ _ _ Ha).
Qed.

Lemma debug_suffix_raises (v : pyval) (e : exn) :
  Client.debug_suffix v = Raise e -> exn_class e = TypeError.
Proof.
  unfold Client.debug_suffix. destruct (PyVal.truthy v); [|discriminate].
  destruct v; intros H; try discriminate H; injection H as <-; reflexivity.
Qed.

(** What the classification returns is the body itself, and then the
    body has neither marker; what it raises is one of four Moodle
    classes or [TypeError]. *)
Lemma classify_outcome (result : pyval) :
  match Client.classify result with
  | Ok v =>
      v = result
      /\ match result with
         | PyDict d =>
             PyVal.dict_has d "exception" = false /\ PyVal.dict_has d "errorcode" = false
         | _ => True
         end
  | Raise e =>
      In (exn_class e)
        [MoodleAuthError; MoodlePermissionError; MoodleNotFoundError; MoodleAPIError;
         TypeError]
  end.
Proof.
  unfold Client.classify.
  destruct result as [ | b | n | s | l | l | d]; try (split; [reflexivity | exact I]).
  destruct (PyVal.dict_has d "exception") eqn:Hex;
    destruct (PyVal.dict_has d "errorcode") eqn:Hcode; cbn [orb];
    try (split; [reflexivity | split; reflexivity]).
  all: destruct (Client.either_in "invalidtoken" _ _) as [[]|e1] eqn:H1;
    [simpl; tauto | | rewrite (either_in_raises _ _ _ _ H1); simpl; tauto].
  all: destruct (Client.either_in "nopermission" _ _) as [[]|e2] eqn:H2;
    [simpl; tauto | | rewrite (either_in_raises _ _ _ _ H2); simpl; tauto].
  all: destruct (Client.either_in "invalidrecord" _ _) as [[]|e3] eqn:H3;
    [simpl; tauto | | rewrite (either_in_raises _ _ _ _ H3); simpl; tauto].
  all: destruct (Client.debug_suffix _) as [suffix|e4] eqn:H4;
    [simpl; tauto | rewrite (debug_suffix_raises _ _ H4); simpl; tauto].
Qed.

(** X10.  A call that returns has sent exactly one request, got a 2xx
    reply whose body decoded to the value returned, and that value is
    no error body: when it is a dict it has neither [exception] nor
    [errorcode]. *)
Theorem returned_value_is_no_error_body (self : MoodleAPIClient)
    (function_name : string) (params : option (list (string * pyval)))
    (w w' : world) (v : pyval) :
  Client._make_request self function_name params w = (Ok v, w') ->
  w' = (w ++ [request_of self function_name params])%list
  /\ (exists status text,
         client_get self w (request_of self function_name params)
         = Response status text (Json v)
         /\ Client.is_success status = true)
  /\ forall d, v = PyDict d ->
               PyVal.dict_has d "exception" = false
               /\ PyVal.dict_has d "errorcode" = false.
Proof.
  rewrite make_request_run. intros H. injection H as Hreply <-.
  split; [reflexivity|].
  unfold Client.handle_reply in Hreply.
  destruct (client_get self w _) as [msg | status text body]; [discriminate|].
  destruct (Client.is_success status) eqn:Hok.
  - destruct body as [result | msg]; [|discriminate].
    pose proof (classify_outcome result) as Hc. rewrite Hreply in Hc.
    destruct Hc as [-> Hshape]. split.
    + exists status, text. split; [reflexivity | exact Hok].
    + intros d ->. exact Hshape.
  - unfold Client.http_status_error in Hreply.
    destruct ((status =? 401) || (status =? 403)); [discriminate|].
    destruct (status =? 404); discriminate.
Qed.

Lemma returned_value_is_no_error_body_witness :
  exists status text,
    client_get (Stub.client Stub.null_server) []
      (request_of (Stub.client Stub.null_server) "core_webservice_get_site_info" None)
    = Response status text (Json PyNone)
    /\ Client.is_success status = true.
Proof.
  exact (proj1 (proj2 (returned_value_is_no_error_body (Stub.client Stub.null_server)
                         "core_webservice_get_site_info" None [] _ PyNone eq_refl))).
Defined.

(** What the classification raises, it raises for an error body. *)
Lemma classify_raises_on_error_body (result : pyval) (e : exn) :
  Client.classify result = Raise e ->
  exists d, result = PyDict d
            /\ PyVal.dict_has d "exception" || PyVal.dict_has d "errorcode" = true.
Proof.
  unfold Client.classify.
  destruct result as [ | b | n | s | l | l | d]; try discriminate.
  destruct (PyVal.dict_has d "exception" || PyVal.dict_has d "errorcode") eqn:Hmark;
    [|discriminate].
  intros _. exists d. split; [reflexivity | exact Hmark].
Qed.

(** X11.  Given what [client.get] did, returned a response or raised
    an [httpx.RequestError], what the [try] statement of
    [_make_request] raises is one of the five classes of the client
    (authentication, permission, not-found, generic API, connection)
    or [TypeError]; the connection error means that no 2xx response
    arrived, and [TypeError] that a 2xx response carried an error body.
    (An exception of [client.get] that is no [httpx.RequestError] is
    not a reply of this model.) *)
Theorem raised_error_classes (reply : http_reply) (e : exn) :
  Client.handle_reply reply = Raise e ->
  In (exn_class e) (request_error_classes ++ [TypeError])
  /\ (exn_class e = MoodleConnectionError ->
      forall status text body,
        reply = Response status text body -> Client.is_success status = false)
  /\ (exn_class e = TypeError ->
      exists status text d,
        reply = Response status text (Json (PyDict d))
        /\ Client.is_success status = true
        /\ PyVal.dict_has d "exception" || PyVal.dict_has d "errorcode" = true).
Proof.
  intros Hreply. unfold Client.handle_reply in Hreply.
  destruct reply as [msg | status text body].
  - injection Hreply as <-. split; [simpl; tauto|]. split.
    + intros _ ? ? ? Hr. discriminate Hr.
    + intros Hc. discriminate Hc.
  - destruct (Client.is_success status) eqn:Hok.
    + destruct body as [result | msg].
      * pose proof (classify_outcome result) as Hc. rewrite Hreply in Hc.
        split; [simpl in *; tauto|]. split.
        -- intros Hconn. rewrite Hconn in Hc. simpl in Hc.
           destruct Hc as [H | [H | [H | [H | [H | []]]]]]; discriminate H.
        -- intros _. destruct (classify_raises_on_error_body _ _ Hreply)
             as (d & -> & Hmark).
           exists status, text, d. repeat split; assumption.
      * injection Hreply as <-. split; [simpl; tauto|]. split; intros H; discriminate H.
    + assert (Hcls : In (exn_class e)
                       [MoodleAuthError; MoodleNotFoundError; MoodleConnectionError]).
      { unfold Client.http_status_error in Hreply.
        destruct ((status =? 401) || (status =? 403));
          [injection Hreply as <-; simpl; tauto|].
        destruct (status =? 404); injection Hreply as <-; simpl; tauto. }
      split; [simpl in *; tauto|]. split.
      * intros _ ? ? ? Hr. injection Hr as <- _ _. exact Hok.
      * intros Hc. rewrite Hc in Hcls. simpl in Hcls.
        destruct Hcls as [H | [H | [H | []]]]; discriminate H.
Qed.

Lemma raised_error_classes_witness :
  exists status text d,
    Response 200 "OK" (Json (PyDict null_code_body))
    = Response status text (Json (PyDict d))
    /\ Client.is_success status = true
    /\ PyVal.dict_has d "exception" || PyVal.dict_has d "errorcode" = true.
Proof.
  exact (proj2 (proj2 (raised_error_classes
                         (Response 200 "OK" (Json (PyDict null_code_body)))
                         (Exn TypeError "argument of type 'NoneType' is not iterable")
                         eq_refl)) eq_refl).
Defined.

End CallOutcomes.

(** ** The error decorator *)

Section ErrorDecorator.

Context {A : Type}.

(** The flag of the last handler never leaves its default: the call
    [config.is_development()] cannot succeed. *)
Lemma unexpected_is_dev_always (kwargs : gmap string pyobj) :
  ErrorHandling.unexpected_is_dev kwargs = true.
Proof.
  unfold ErrorHandling.unexpected_is_dev.
  destruct (is_none (kwargs_get kwargs "ctx")); [reflexivity|].
  destruct (kwargs_get kwargs "ctx") as [v | ctx | ]; try reflexivity.
  destruct (request_context ctx) as [rc|]; [|reflexivity].
  destruct (Lifespan.get (lifespan_context rc) "config"); reflexivity.
Qed.

(** What the decorator does with an exception of the function. *)
Lemma handle_raise (func : tool A) (args : list pyobj) (kwargs : gmap string pyobj)
    (w w' : world) (e : exn) :
  func args kwargs w = (Raise e, w') ->
  exists rest : string,
    ErrorHandling.handle_moodle_errors func args kwargs w
    = (Exc.raise ToolError (tool_error_head e +:+ rest), w').
Proof.
  intros Hrun. unfold ErrorHandling.handle_moodle_errors, try_except.
  rewrite Hrun. destruct e as [c msg]. unfold tool_error_head.
  destruct c; cbn -[String.append ErrorHandling.nl ErrorHandling.unexpected_is_dev];
    rewrite ?unexpected_is_dev_always;
    unfold ErrorHandling.tool_error, throw;
    first [ exists ""; rewrite append_nil_r; reflexivity
          | eexists; rewrite append_assoc; reflexivity
          | eexists; reflexivity ].
Qed.

(** X12.  Whatever the decorated function returns, or raises of the
    classes derived from [Exception], [handle_moodle_errors] returns
    its value unchanged or raises [ToolError], nothing else, and adds
    no request of its own.  (The last handler is [except Exception]:
    what derives from [BaseException] only, a cancellation for one, is
    no outcome of this model.) *)
Theorem only_tool_error_escapes (func : tool A) (args : list pyobj)
    (kwargs : gmap string pyobj) (w : world) :
  match ErrorHandling.handle_moodle_errors func args kwargs w with
  | (Ok a, w') => func args kwargs w = (Ok a, w')
  | (Raise e, w') =>
      exn_class e = ToolError
      /\ exists e0, func args kwargs w = (Raise e0, w')
  end.
Proof.
  destruct (func args kwargs w) as [[a | e0] w'] eqn:Hrun.
  - unfold ErrorHandling.handle_moodle_errors, try_except. rewrite Hrun. reflexivity.
  - destruct (handle_raise func args kwargs w w' e0 Hrun) as [rest ->].
    split; [reflexivity | exists e0; reflexivity].
Qed.

(** X13.  The message of the [ToolError] starts with the label of the
    most specific handler for the class of the exception and the text
    of the exception: an authentication or permission error is not
    reported as a generic API error, and a write denial is reported as
    a permission error.  For a class without handler it starts with the
    name of that class, whatever the configuration in the context, also
    in production. *)
Theorem tool_error_message_by_class (func : tool A) (args : list pyobj)
    (kwargs : gmap string pyobj) (w w' : world) (e : exn) :
  func args kwargs w = (Raise e, w') ->
  exists msg : string,
    ErrorHandling.handle_moodle_errors func args kwargs w
    = (Exc.raise ToolError msg, w')
    /\ PyString.startswith (tool_error_head e) msg = true.
Proof.
  intros Hrun. destruct (handle_raise func args kwargs w w' e Hrun) as [rest Hrest].
  exists (tool_error_head e +:+ rest). split; [exact Hrest | apply startswith_app].
Qed.

End ErrorDecorator.

Section ErrorDecoratorExamples.

Lemma tool_error_message_by_class_witness :
  exists msg : string,
    ErrorHandling.handle_moodle_errors failing_tool [] production_call []
    = (Exc.raise ToolError msg, [])
    /\ PyString.startswith "An unexpected error occurred: RuntimeError" msg = true.
Proof.
  exact (tool_error_message_by_class failing_tool [] production_call [] []
           (Exn RuntimeError "boom") eq_refl).
Defined.

End ErrorDecoratorExamples.

(** ** The import, end to end *)

Section ImportEndToEnd.

Lemma bind_import_kwargs (source dest : pyval) (ctx : Context) :
  Courses.bind_arguments Courses.parameters [] (import_kwargs source dest ctx)
  = Ok (import_kwargs source dest ctx).
Proof. vm_compute. reflexivity. Qed.

Lemma import_kwargs_ctx (source dest : pyval) (ctx : Context) :
  import_kwargs source dest ctx !! "ctx" = Some (OCtx ctx).
Proof. vm_compute. reflexivity. Qed.

Lemma import_course_content_run (client : MoodleAPIClient) (config : MoodleConfig)
    (source dest : pyval) (w : world) :
  Courses.import_course_content []
    (import_kwargs source dest (Stub.context (Lifespan.make client config))) w
  = let req := request_of client "core_course_import_course"
                 (Some (import_request_params source dest)) in
    match Client.handle_reply (client_get client w req) with
    | Ok _ => (Ok (import_rendered source dest), (w ++ [req])%list)
    | Raise e =>
        (Exc.raise PyException ("Failed to import course content: " +:+ exn_message e),
         (w ++ [req])%list)
    end.
Proof.
  unfold Courses.import_course_content, bind, lift.
  rewrite bind_import_kwargs.
  change (Courses.bound (import_kwargs source dest _) "source_course_id")
    with (OVal source).
  change (Courses.bound (import_kwargs source dest _) "dest_course_id")
    with (OVal dest).
  change (Courses.bound (import_kwargs source dest _) "format") with OFieldInfo.
  change (Courses.bound (import_kwargs source dest _) "ctx")
    with (OCtx (Stub.context (Lifespan.make client config))).
  unfold Courses.import_body, bind, lift, try_except.
  cbn [ApiHelpers.get_moodle_client Stub.context request_context lifespan_context
       Lifespan.make Lifespan.get String.eqb Ascii.eqb Bool.eqb Courses.make_request_on
       Courses.param_value].
  rewrite make_request_run. cbv zeta.
  change (request_of client "core_course_import_course"
            (Some [("importfrom", source); ("importto", dest); ("deletecontent", PyInt 0)]))
    with (request_of client "core_course_import_course"
            (Some (import_request_params source dest))).
  destruct (Client.handle_reply _); reflexivity.
Qed.

(** X15.  When both courses pass the gate, the registered import tool
    sends exactly one request, [core_course_import_course] with the two
    identifiers.  When that request succeeds the tool returns the
    confirmation with both identifiers.  When it fails, whatever the
    class of the failure (authentication, permission, connection, ...),
    the tool raises the [ToolError] of an unexpected error that names
    only the class [Exception]: the body of the tool has wrapped the
    classified error before the decorator sees it. *)
Theorem import_end_to_end (client : MoodleAPIClient) (config : MoodleConfig)
    (source dest : pyval) (w : world) :
  passes_gate config (OVal source) && passes_gate config (OVal dest) = true ->
  Courses.moodle_import_course_content []
    (import_kwargs source dest (Stub.context (Lifespan.make client config))) w
  = let req := request_of client "core_course_import_course"
                 (Some (import_request_params source dest)) in
    match Client.handle_reply (client_get client w req) with
    | Ok _ => (Ok (import_rendered source dest), (w ++ [req])%list)
    | Raise _ =>
        (Exc.raise ToolError
           ("An unexpected error occurred: Exception" +:+ ErrorHandling.nl
              +:+ ErrorHandling.nl
              +:+ "Please try again or contact the administrator if the issue persists."),
         (w ++ [req])%list)
    end.
Proof.
  intros Hpass. apply andb_prop in Hpass as [Hsrc Hdst].
  unfold Courses.moodle_import_course_content, ErrorHandling.handle_moodle_errors,
    try_except.
  rewrite (write_gated_import_run []
             (import_kwargs source dest (Stub.context (Lifespan.make client config)))
             (Stub.context (Lifespan.make client config))
             {| lifespan_context := Lifespan.make client config |} config
             (import_kwargs_ctx _ _ _) eq_refl eq_refl).
  change (kwargs_get (import_kwargs source dest _) "source_course_id")
    with (OVal source).
  change (kwargs_get (import_kwargs source dest _) "dest_course_id")
    with (OVal dest).
  rewrite Hsrc, Hdst, import_course_content_run. cbv zeta.
  destruct (Client.handle_reply _) as [v | e]; [reflexivity|].
  cbn -[String.append ErrorHandling.nl ErrorHandling.unexpected_is_dev].
  rewrite unexpected_is_dev_always. unfold ErrorHandling.tool_error, throw.
  rewrite <- !append_assoc. reflexivity.
Qed.

Lemma import_end_to_end_witness :
  Courses.moodle_import_course_content []
    (import_kwargs (PyInt 7299) (PyInt 7299)
       (Stub.context (Lifespan.make (Stub.client (Stub.invalid_token_server 200))
                        Stub.dev_config))) []
  = (Exc.raise ToolError
       ("An unexpected error occurred: Exception" +:+ ErrorHandling.nl
          +:+ ErrorHandling.nl
          +:+ "Please try again or contact the administrator if the issue persists."),
     [request_of (Stub.client (Stub.invalid_token_server 200))
        "core_course_import_course"
        (Some (import_request_params (PyInt 7299) (PyInt 7299)))]).
Proof.
  exact (import_end_to_end (Stub.client (Stub.invalid_token_server 200))
           Stub.dev_config (PyInt 7299) (PyInt 7299) [] eq_refl).
Defined.

End ImportEndToEnd.

(** ** A gated tool under the error decorator *)

Section GatedTool.

Context {A : Type}.

Lemma startswith_app_r (p s after : string) :
  PyString.startswith p s = true -> PyString.startswith p (s +:+ after) = true.
Proof.
  revert s. induction p as [|x p IH]; intros s; [reflexivity|].
  destruct s as [|y s]; cbn [PyString.startswith]; [discriminate|].
  change (String y s +:+ after) with (String y (s +:+ after)).
  cbn [PyString.startswith]. intros H. apply andb_prop in H as [Hxy Hs].
  rewrite Hxy, (IH _ Hs). reflexivity.
Qed.

Lemma contains_app_r (needle s after : string) :
  PyString.contains needle s = true ->
  PyString.contains needle (s +:+ after) = true.
Proof.
  induction s as [|c s IH].
  - cbn [PyString.contains]. rewrite orb_false_r. intros H.
    destruct needle; [|discriminate H]. destruct after; reflexivity.
  - change (String c s +:+ after) with (String c (s +:+ after)).
    cbn [PyString.contains]. intros H. apply orb_prop in H as [H | H].
    + change (String c (s +:+ after)) with (String c s +:+ after).
      rewrite (startswith_app_r _ _ after H). reflexivity.
    + rewrite (IH H). apply orb_true_r.
Qed.

Lemma restriction_message_has_course (cfg : MoodleConfig) (course_id : pyval) :
  PyString.contains ("Attempted: Course " +:+ PyVal.str course_id)
    (Config.get_write_restriction_message cfg course_id) = true.
Proof.
  unfold Config.get_write_restriction_message.
  destruct (Config.is_production cfg); do 2 apply contains_skip; apply contains_start.
Qed.

(** X16.  For any function under [require_write_permission] and
    [handle_moodle_errors], as the write tools that have a gate are
    decorated: when the
    configuration refuses the identifier given, the caller gets a
    [ToolError] that starts as a permission denial blocked for safety
    and names the course attempted, and no request is sent. *)
Theorem gated_tool_denial_names_course (course_id_param : string) (func : tool A)
    (args : list pyobj) (kwargs : gmap string pyobj) (ctx : Context)
    (rc : RequestContext) (config : MoodleConfig) (course_id : pyval) (w : world) :
  kwargs !! "ctx" = Some (OCtx ctx) ->
  request_context ctx = Some rc ->
  Lifespan.get (lifespan_context rc) "config" = LConfig config ->
  kwargs !! course_id_param = Some (OVal course_id) ->
  course_id <> PyNone ->
  Config.can_write_to_course config course_id = false ->
  exists msg : string,
    ErrorHandling.handle_moodle_errors
      (ErrorHandling.require_write_permission course_id_param func) args kwargs w
    = (Exc.raise ToolError msg, w)
    /\ PyString.startswith "Permission denied: Write operation blocked for safety:" msg
       = true
    /\ PyString.contains ("Attempted: Course " +:+ PyVal.str course_id) msg = true.
Proof.
  intros Hctx Hrc Hcfg Hid Hnone Hdeny.
  assert (Hget : kwargs_get kwargs course_id_param = OVal course_id)
    by (unfold kwargs_get; rewrite Hid; reflexivity).
  assert (Hrun : ErrorHandling.require_write_permission course_id_param func
                   args kwargs w
                 = (Exc.raise WriteOperationError
                      ("Write operation blocked for safety:" +:+ ErrorHandling.nl
                         +:+ ErrorHandling.nl
                         +:+ Config.get_write_restriction_message config course_id), w)).
  { rewrite (gate_with_config _ func _ _ ctx rc config Hctx Hrc Hcfg), Hget.
    unfold passes_gate, denial_message. cbn [ErrorHandling.can_write].
    rewrite Hdeny, andb_false_r.
    destruct course_id; try reflexivity. contradiction. }
  destruct (handle_write_denial _ _ _ _ _ _ Hrun) as [text Htext].
  eexists. split; [exact Htext|]. split.
  - rewrite (append_assoc "Write operation blocked for safety:" _ text).
    rewrite <- (append_assoc "Permission denied: " "Write operation blocked for safety:").
    exact (startswith_app
             ("Permission denied: " +:+ "Write operation blocked for safety:") _).
  - apply contains_skip. apply contains_app_r.
    do 3 apply contains_skip. apply restriction_message_has_course.
Qed.

End GatedTool.

Section GatedToolExamples.

Lemma gated_tool_denial_names_course_witness :
  exists msg : string,
    ErrorHandling.handle_moodle_errors
      (ErrorHandling.require_write_permission "course_id" sending_tool) []
      (course_call 99999) []
    = (Exc.raise ToolError msg, [])
    /\ PyString.startswith "Permission denied: Write operation blocked for safety:" msg
       = true
    /\ PyString.contains "Attempted: Course 99999" msg = true.
Proof.
  exact (gated_tool_denial_names_course "course_id" sending_tool [] (course_call 99999)
           Stub.ctx _ Stub.dev_config (PyInt 99999) []
           eq_refl eq_refl eq_refl eq_refl ltac:(discriminate) eq_refl).
Defined.

End GatedToolExamples.

(** ** The endpoint *)

Section Endpoint.

Lemma rstrip_char_app (ch : ascii) (s : string) :
  Client.rstrip_char ch (s +:+ String ch EmptyString) = Client.rstrip_char ch s.
Proof.
  induction s as [|c s IH].
  - change ("" +:+ String ch "") with (String ch "").
    cbn [Client.rstrip_char]. rewrite Ascii.eqb_refl. reflexivity.
  - change (String c s +:+ String ch "") with (String c (s +:+ String ch "")).
    cbn [Client.rstrip_char]. rewrite IH. reflexivity.
Qed.

Lemma rstrip_char_idem (ch : ascii) (s : string) :
  Client.rstrip_char ch (Client.rstrip_char ch s) = Client.rstrip_char ch s.
Proof.
  induction s as [|c s IH]; [reflexivity|]. cbn [Client.rstrip_char].
  destruct (Client.rstrip_char ch s) as [|c' r] eqn:E.
  - destruct (Ascii.eqb c ch) eqn:Ec; [reflexivity|].
    cbn [Client.rstrip_char]. rewrite Ec. reflexivity.
  - cbn [Client.rstrip_char] in *. rewrite IH. reflexivity.
Qed.

(** X17.  The client is the same whether or not the configured URL
    ends with a slash: a trailing slash is dropped before the endpoint
    path is appended, and dropping is idempotent. *)
Theorem endpoint_ignores_trailing_slash (url tok : string)
    (get : world -> request -> http_reply) :
  Client.init (url +:+ "/") tok get = Client.init url tok get
  /\ Client.init (base_url (Client.init url tok get)) tok get = Client.init url tok get
  /\ api_endpoint (Client.init url tok get)
     = base_url (Client.init url tok get) +:+ "/webservice/rest/server.php".
Proof.
  unfold Client.init. cbn [base_url api_endpoint].
  rewrite (rstrip_char_app "/"%char url), rstrip_char_idem.
  repeat split; reflexivity.
Qed.

End Endpoint.
